(** * MultiObjectTracker: initialisation and per-frame filtering

    A shallow embedding of [MultiObjectTracker::MultiObjectTracker],
    [MultiObjectTracker::Initialize] and [MultiObjectTracker::Filter]
    (object_tracker_controller_service_node.cpp, lines 253-465).

    The tracker drives a coordinate particle filter ([FilterType]) that lives
    in the state_filtering library.  The library is an interface here: its
    operations are the fields of the classes [StateFiltering] and
    [CoordinateFilter], and what the tracker does is observed through the
    sequence of calls it makes on the filter (the wrapper [Logged]).

    Doubles are binary64 floats ([PrimFloat]); [size_t] is a 64-bit unsigned
    integer, written as a [Z] with its wrap-around.  Dereferencing a null
    [filter_], indexing a vector out of range and dividing by zero are
    undefined in the source: the model returns [None] there.

    The module [Controller] embeds [stop_object_tracker] and
    [track_object_srv] of the controller service node (lines 56-172) in the
    same way: the service clients, the parameter server and the interactive
    marker initialiser are the fields of the class [Node], and the calls made
    on them are observed through the wrapper [Watched]. *)

From Stdlib Require Import ZArith Floats Uint63 Bool Lia.
From stdpp Require Import base option list strings.

Local Open Scope Z_scope.

(** ** Scalars and Eigen values *)

Definition Scalar := float.
Definition VectorXd := list float.
Definition Vector3d := list float.
Definition MatrixXd := list (list float).
Definition Matrix3d := list (list float).

(** [double(i)] for an [int]. *)
Definition double_of_int (i : Z) : float :=
  if i <? 0 then PrimFloat.opp (of_uint63 (Uint63.of_Z (- i)))
  else of_uint63 (Uint63.of_Z i).

(** [m.topLeftCorner(2,3) /= d] on a 3x3 matrix: the first two rows are
    divided entry by entry, the third row stays. *)
Definition topLeftCorner_2_3_div (m : Matrix3d) (d : float) : Matrix3d :=
  map (map (fun x => PrimFloat.div x d)) (take 2 m) ++ drop 2 m.

(** [Eigen::MatrixXd::Identity(3, 3) * s]. *)
Definition Identity_3_3 : MatrixXd :=
  [[1%float; 0%float; 0%float];
   [0%float; 1%float; 0%float];
   [0%float; 0%float; 1%float]].

Definition scaled (m : MatrixXd) (s : float) : MatrixXd :=
  map (map (fun x => PrimFloat.mul x s)) m.

(** [ProcessModel::Input::Zero(n)]. *)
Definition Input_Zero (n : nat) : VectorXd := replicate n 0%float.

(** Conversion of an [int] to [size_t] (the usual arithmetic conversions of
    [int / size_t]). *)
Definition size_t_of_int (i : Z) : Z := i mod 2 ^ 64.

(** ** ROS messages *)

Record Time := { sec : Z; nsec : Z }.

(** [ros::Time::toSec]: [(double)sec + 1e-9 * (double)nsec].  The literal is
    the double nearest to 1e-9. *)
Definition toSec (t : Time) : float :=
  PrimFloat.add (double_of_int (sec t))
                (PrimFloat.mul 0x1.12e0be826d695p-30%float (double_of_int (nsec t))).

Record Header := { stamp : Time; frame_id : string }.

Record Image := {
  header : Header;
  height : Z;
  width : Z;
  data : list Z
}.

(** The depth image as an Eigen matrix. *)
Record Observation := {
  rows : Z;
  cols : Z;
  coeffs : list float
}.

(** ** Parameters on the node handle *)

Record NodeHandle := {
  object_names : list string;
  downsampling_factor : Z;
  use_gpu : bool;
  evaluation_count : Z;
  sampling_blocks : list (list nat);
  max_kl_divergence : float;
  max_sample_count : Z;
  p_visible_init : float;
  p_visible_visible : float;
  p_visible_occluded : float;
  linear_acceleration_sigma : float;
  angular_acceleration_sigma : float;
  damping : float;
  tail_weight : float;
  model_sigma : float;
  sigma_factor : float
}.

(** ** Objects built during initialisation *)

Record RigidBodyRenderer := {
  renderer_vertices : list (list Vector3d);
  renderer_indices : list (list (list Z));
  renderer_body_count : nat
}.

Record KinectObserver := {
  ko_tail_weight : float; ko_model_sigma : float; ko_sigma_factor : float
}.

Record OcclusionProcess := {
  op_visible_becomes_occluded : float; op_occluded_stays_occluded : float
}.

Inductive ObservationModel :=
| ObserverCPU (camera_matrix : Matrix3d) (n_rows n_cols : Z) (max_sample_count : Z)
    (renderer : RigidBodyRenderer) (observer : KinectObserver)
    (occlusion : OcclusionProcess) (p_visible_init : float)
| ObserverGPU (camera_matrix : Matrix3d) (n_rows n_cols : Z) (max_sample_count : Z)
    (p_visible_init : float)
    (vertices : list (list Vector3d)) (indices : list (list (list Z)))
    (p_visible_visible p_visible_occluded tail_weight model_sigma sigma_factor
       max_depth exponential_rate : float).

Record BodyParameters := {
  bp_center : Vector3d;
  bp_damping : float;
  bp_linear_acceleration_covariance : MatrixXd;
  bp_angular_acceleration_covariance : MatrixXd
}.

Record ProcessModel := {
  pm_body_count : nat;
  pm_parameters : list BodyParameters
}.

Record Marker := {
  marker_pose : list (list float);
  marker_header : Header;
  marker_path : string;
  marker_id : nat;
  marker_rgb : Z * Z * Z
}.

(** ** The libraries behind the tracker *)

(** What the tracker uses of ROS, Eigen, libm and state_filtering besides the
    filter itself.  A [FloatingBodySystem] is a sequence of per-body blocks,
    one per object, addressed by [operator[]] and [position(i)]. *)
Class StateFiltering := {
  (** compile-time switch [BUILD_GPU] *)
  BUILD_GPU : bool;
  (** [ri::Ros2Eigen<Scalar>(image, downsampling_factor)] *)
  Ros2Eigen : Image -> Z -> Observation;
  (** [ros::package::getPath] *)
  getPath : string -> string;
  (** [ObjectFileReader]: vertices and triangle indices of a mesh file *)
  get_vertices : string -> list Vector3d;
  get_indices : string -> list (list Z);
  (** [RigidBodyRenderer::object_center(i).cast<double>()] *)
  object_center : RigidBodyRenderer -> nat -> Vector3d;
  (** [pow] and [log] of libm *)
  pow : float -> float -> float;
  log : float -> float;
  (** one body's block of a [sf::FloatingBodySystem<>] *)
  Body : Type;
  (** the block of every body in a system built by [FloatingBodySystem(count)] *)
  Body_new : Body;
  (** [s.position(i) = v] on the block of body [i] *)
  Body_set_position : Vector3d -> Body -> Body;
  (** [s[i] = v]: a block assigned from a dynamic vector *)
  Body_of_vector : VectorXd -> Body;
  (** [s = v]: a whole system assigned from a dynamic vector *)
  System_of_vector : VectorXd -> list Body;
  (** the conversion back, on return from [Filter] *)
  vector_of_System : list Body -> VectorXd;
  (** [s.homogeneous_matrix(i).cast<float>()] *)
  homogeneous_matrix : list Body -> nat -> list (list float)
}.

Abbreviation FloatingBodySystem := (list Body).

(** [FilterType], the coordinate particle filter the tracker owns.  The object
    holds its samples, weights, schedule and random source; each mutating
    member function is a function on that state. *)
Class CoordinateFilter `{StateFiltering} (F : Type) := {
  FilterType_new : ProcessModel -> ObservationModel -> list (list nat) -> float -> F;
  FilterType_SamplingBlocks : list (list nat) -> F -> F;
  FilterType_set_Samples : list FloatingBodySystem -> F -> F;
  FilterType_Filter : Observation -> float -> VectorXd -> F -> F;
  FilterType_Resample : Z -> F -> F;
  FilterType_Samples : F -> list FloatingBodySystem;
  FilterType_Mean : F -> FloatingBodySystem
}.

(** Modelled from the spec: the filter step (section 4.3), the process model
    (4.5) and the resampler (4.4, 8) are not part of the source file.  With
    zero elapsed time the process model is the identity, so a filter step
    only reweights (and possibly selects among) the samples it was given; a
    step that returns leaves a non-empty population non-empty; resampling
    selects among the current samples and, for a positive target size and a
    non-empty population, returns exactly that many.  The operations of
    [CoordinateFilter] are total functions: a call the library may refuse (a
    resample to size 0, a step on an empty or degenerate population) is
    written as one that returns, so what is proved of such a call is that
    the tracker makes it, not that the library carries it out. *)
Class FilterContract `{CoordinateFilter F} : Prop := {
  Samples_set_Samples :
    forall P f, FilterType_Samples (FilterType_set_Samples P f) = P;
  Filter_zero_selects :
    forall image u f s,
      s ∈ FilterType_Samples (FilterType_Filter image 0%float u f) ->
      s ∈ FilterType_Samples f;
  Filter_nonempty :
    forall image dt u f,
      FilterType_Samples f <> [] ->
      FilterType_Samples (FilterType_Filter image dt u f) <> [];
  Resample_selects :
    forall n f s,
      s ∈ FilterType_Samples (FilterType_Resample n f) ->
      s ∈ FilterType_Samples f;
  Resample_length :
    forall n f,
      0 < n -> FilterType_Samples f <> [] ->
      length (FilterType_Samples (FilterType_Resample n f)) = Z.to_nat n
}.

(** ** The tracker *)

Section Tracker.
Context `{CoordinateFilter F}.

Record MultiObjectTracker := {
  node_handle_ : NodeHandle;
  object_names_ : list string;
  downsampling_factor_ : Z;
  (** [boost::shared_ptr<FilterType>], null until [Initialize] *)
  filter_ : option F;
  last_measurement_time_ : Scalar;
  (** the markers sent through [object_publisher_], oldest first *)
  object_publisher_ : list Marker
}.

(** [MultiObjectTracker::MultiObjectTracker()] *)
Definition MultiObjectTracker_new (nh : NodeHandle) : MultiObjectTracker :=
  {| node_handle_ := nh;
     object_names_ := object_names nh;
     downsampling_factor_ := downsampling_factor nh;
     filter_ := None;
     last_measurement_time_ := nan;
     object_publisher_ := [] |}.

(** *** Initialize: the models *)

Definition object_model_path (name : string) : string :=
  getPath "arm_object_models" +:+ "/objects/" +:+ name +:+ "/" +:+ name
    +:+ "_downsampled" +:+ ".obj".

Definition make_renderer (names : list string) : RigidBodyRenderer :=
  {| renderer_vertices := map (fun n => get_vertices (object_model_path n)) names;
     renderer_indices := map (fun n => get_indices (object_model_path n)) names;
     renderer_body_count := length names |}.

Definition make_observation_model (nh : NodeHandle) (camera_matrix : Matrix3d)
    (image : Observation) (initial_state_count : nat)
    (object_renderer : RigidBodyRenderer) : ObservationModel :=
  let use_gpu := if BUILD_GPU then use_gpu nh else false in
  if negb use_gpu then
    ObserverCPU camera_matrix (rows image) (cols image)
      (Z.of_nat initial_state_count) object_renderer
      {| ko_tail_weight := tail_weight nh;
         ko_model_sigma := model_sigma nh;
         ko_sigma_factor := sigma_factor nh |}
      {| op_visible_becomes_occluded := PrimFloat.sub 1 (p_visible_visible nh);
         op_occluded_stays_occluded := PrimFloat.sub 1 (p_visible_occluded nh) |}
      (p_visible_init nh)
  else
    ObserverGPU camera_matrix (rows image) (cols image) (max_sample_count nh)
      (p_visible_init nh)
      (renderer_vertices object_renderer) (renderer_indices object_renderer)
      (p_visible_visible nh) (p_visible_occluded nh)
      (tail_weight nh) (model_sigma nh) (sigma_factor nh)
      6%float (PrimFloat.opp (log 0.5%float)).

Definition make_process_model (nh : NodeHandle) (names : list string)
    (object_renderer : RigidBodyRenderer) : ProcessModel :=
  let linear_acceleration_covariance :=
    scaled Identity_3_3 (pow (linear_acceleration_sigma nh) 2%float) in
  let angular_acceleration_covariance :=
    scaled Identity_3_3 (pow (angular_acceleration_sigma nh) 2%float) in
  {| pm_body_count := length names;
     pm_parameters :=
       map (fun i =>
              {| bp_center := object_center object_renderer i;
                 bp_damping := damping nh;
                 bp_linear_acceleration_covariance := linear_acceleration_covariance;
                 bp_angular_acceleration_covariance := angular_acceleration_covariance |})
           (seq 0 (length names)) |}.

(** *** Initialize: the samples *)

(** The one block [0, 1, ..., 6k-1] of "standard sampling". *)
Definition dependent_sampling_blocks (body_count : nat) : list (list nat) :=
  [seq 0 (body_count * 6)].

(** [default_state]: every body of a fresh system moved to [(0, 0, 1.5)],
    outside of the image. *)
Definition outside_of_image : Body :=
  Body_set_position [0%float; 0%float; 1.5%float] Body_new.

Definition default_state (body_count : nat) : FloatingBodySystem :=
  map (fun _ => outside_of_image) (seq 0 body_count).

(** [full_initial_state[body_index] = x] *)
Definition assign_body (body_index : nat) (x : VectorXd)
    (s : FloatingBodySystem) : option FloatingBodySystem :=
  if decide (body_index < length s)%nat
  then Some (<[body_index := Body_of_vector x]> s)
  else None.

(** The loop over [state_index] (lines 410-415), from [state_index] on. *)
Fixpoint inject_from (body_index : nat) (initial_states : list VectorXd)
    (state_index : nat) (multi_body_samples : list FloatingBodySystem)
    : option (list FloatingBodySystem) :=
  match multi_body_samples with
  | [] => Some []
  | sample :: rest =>
      x ← initial_states !! state_index;
      full_initial_state ← assign_body body_index x sample;
      rest' ← inject_from body_index initial_states (S state_index) rest;
      Some (full_initial_state :: rest')
  end.

Definition inject (body_index : nat) (initial_states : list VectorXd)
    (multi_body_samples : list FloatingBodySystem) :=
  inject_from body_index initial_states 0 multi_body_samples.

(** One pass of the loop over [body_index] (lines 409-420). *)
Definition stage (image : Observation) (body_count : nat)
    (initial_states : list VectorXd) (body_index : nat)
    (st : list FloatingBodySystem * F) : option (list FloatingBodySystem * F) :=
  multi_body_samples ← inject body_index initial_states st.1;
  let f := FilterType_set_Samples multi_body_samples st.2 in
  let f := FilterType_Filter image 0%float (Input_Zero (body_count * 6)) f in
  let f := FilterType_Resample (Z.of_nat (length multi_body_samples)) f in
  Some (FilterType_Samples f, f).

Fixpoint stages (image : Observation) (body_count : nat)
    (initial_states : list VectorXd) (body_indices : list nat)
    (st : list FloatingBodySystem * F) : option (list FloatingBodySystem * F) :=
  match body_indices with
  | [] => Some st
  | body_index :: later =>
      st' ← stage image body_count initial_states body_index st;
      stages image body_count initial_states later st'
  end.

(** The population and filter a staged initialisation starts from. *)
Definition staged_start (body_count : nat) (initial_states : list VectorXd)
    (f : F) : list FloatingBodySystem * F :=
  (map (fun _ => default_state body_count) initial_states, f).

(** [evaluation_count / sampling_blocks.size()], in [size_t]. *)
Definition operating_size (nh : NodeHandle) : option Z :=
  let n := Z.of_nat (length (sampling_blocks nh)) in
  if decide (n = 0) then None else Some (size_t_of_int (evaluation_count nh) / n).

(** The filter built by lines 270-387: the image and the camera matrix are
    scaled, the meshes loaded, the observation and process models set up. *)
Definition new_filter (t : MultiObjectTracker) (initial_states : list VectorXd)
    (ros_image : Image) (camera_matrix : Matrix3d) : F :=
  let nh := node_handle_ t in
  let camera_matrix :=
    topLeftCorner_2_3_div camera_matrix (double_of_int (downsampling_factor_ t)) in
  let image := Ros2Eigen ros_image (downsampling_factor_ t) in
  let object_renderer := make_renderer (object_names_ t) in
  let observation_model :=
    make_observation_model nh camera_matrix image (length initial_states)
      object_renderer in
  let process := make_process_model nh (object_names_ t) object_renderer in
  FilterType_new process observation_model (sampling_blocks nh)
    (max_kl_divergence nh).

(** [filter_ = f], the other members as they are. *)
Definition with_filter (t : MultiObjectTracker) (f : F) : MultiObjectTracker :=
  {| node_handle_ := node_handle_ t;
     object_names_ := object_names_ t;
     downsampling_factor_ := downsampling_factor_ t;
     filter_ := Some f;
     last_measurement_time_ := last_measurement_time_ t;
     object_publisher_ := object_publisher_ t |}.

(** [MultiObjectTracker::Initialize] *)
Definition Initialize (initial_states : list VectorXd) (ros_image : Image)
    (camera_matrix : Matrix3d) (state_is_partial : bool)
    (t : MultiObjectTracker) : option MultiObjectTracker :=
  let body_count := length (object_names_ t) in
  let image := Ros2Eigen ros_image (downsampling_factor_ t) in
  let f := new_filter t initial_states ros_image camera_matrix in
  let f := FilterType_SamplingBlocks (dependent_sampling_blocks body_count) f in
  f ← (if state_is_partial then
         snd <$> stages image body_count initial_states (seq 0 body_count)
                   (staged_start body_count initial_states f)
       else
         let multi_body_samples := map System_of_vector initial_states in
         let f := FilterType_set_Samples multi_body_samples f in
         Some (FilterType_Filter image 0%float (Input_Zero (body_count * 6)) f));
  n ← operating_size (node_handle_ t);
  let f := FilterType_Resample n f in
  let f := FilterType_SamplingBlocks (sampling_blocks (node_handle_ t)) f in
  Some (with_filter t f).

(** *** Filter *)

Definition mean_marker (ros_image : Image) (mean : FloatingBodySystem)
    (i : nat) (name : string) : Marker :=
  {| marker_pose := homogeneous_matrix mean i;
     marker_header := header ros_image;
     marker_path :=
       "package://arm_object_models/objects/" +:+ name +:+ "/" +:+ name +:+ ".obj";
     marker_id := i;
     marker_rgb := (1, 0, 0) |}.

(** The elapsed time [Filter] computes from the stamp and the stored clock
    (lines 440-442). *)
Definition elapsed (now last : Scalar) : Scalar :=
  let last := if is_nan last then now else last in
  PrimFloat.sub now last.

(** [MultiObjectTracker::Filter] *)
Definition Filter (ros_image : Image) (t : MultiObjectTracker)
    : option (MultiObjectTracker * VectorXd) :=
  let now := toSec (stamp (header ros_image)) in
  let delta_time := elapsed now (last_measurement_time_ t) in
  let image := Ros2Eigen ros_image (downsampling_factor_ t) in
  f ← filter_ t;
  let f :=
    FilterType_Filter image delta_time
      (Input_Zero (length (object_names_ t) * 6)) f in
  let mean := FilterType_Mean f in
  let markers := imap (mean_marker ros_image mean) (object_names_ t) in
  Some ({| node_handle_ := node_handle_ t;
           object_names_ := object_names_ t;
           downsampling_factor_ := downsampling_factor_ t;
           filter_ := Some f;
           last_measurement_time_ := now;
           object_publisher_ := object_publisher_ t ++ markers |},
        vector_of_System (FilterType_Mean f)).

End Tracker.

Arguments MultiObjectTracker : clear implicits.

(** ** The calls made on the filter *)

(** A filter that also remembers, oldest first, every state-changing call
    made on it (the constructor included): the tracker run on [Logged F]
    shows which calls it makes, with which arguments, in which order. *)
Section Logged.
Context `{CoordinateFilter F}.

Inductive Call :=
| CallNew (process : ProcessModel) (observation_model : ObservationModel)
    (blocks : list (list nat)) (max_kl_divergence : float)
| CallSamplingBlocks (blocks : list (list nat))
| CallSamples (samples : list FloatingBodySystem)
| CallFilter (image : Observation) (delta_time : float) (input : VectorXd)
| CallResample (sample_count : Z).

Record Logged := { inner : F; calls : list Call }.

Definition logged (c : Call) (g : F -> F) (f : Logged) : Logged :=
  {| inner := g (inner f); calls := calls f ++ [c] |}.

#[export] Instance Logged_filter : CoordinateFilter Logged := {|
  FilterType_new p o b kl :=
    {| inner := FilterType_new p o b kl; calls := [CallNew p o b kl] |};
  FilterType_SamplingBlocks b :=
    logged (CallSamplingBlocks b) (FilterType_SamplingBlocks b);
  FilterType_set_Samples P :=
    logged (CallSamples P) (FilterType_set_Samples P);
  FilterType_Filter image dt u :=
    logged (CallFilter image dt u) (FilterType_Filter image dt u);
  FilterType_Resample n :=
    logged (CallResample n) (FilterType_Resample n);
  FilterType_Samples f := FilterType_Samples (inner f);
  FilterType_Mean f := FilterType_Mean (inner f)
|}.

(** The sampling schedule in force at each filter step of a call sequence,
    given the schedule [current] in force before it. *)
Fixpoint schedule_at_steps (current : list (list nat)) (cs : list Call)
    : list (list (list nat)) :=
  match cs with
  | [] => []
  | CallNew _ _ b _ :: cs => schedule_at_steps b cs
  | CallSamplingBlocks b :: cs => schedule_at_steps b cs
  | CallFilter _ _ _ :: cs => current :: schedule_at_steps current cs
  | _ :: cs => schedule_at_steps current cs
  end.

(** The elapsed times of the filter steps of a call sequence. *)
Definition step_times (cs : list Call) : list float :=
  omap (fun c => match c with CallFilter _ dt _ => Some dt | _ => None end) cs.

(** The image size the observation model of a call sequence was built for. *)
Definition model_size (o : ObservationModel) : Z * Z :=
  match o with
  | ObserverCPU _ n_rows n_cols _ _ _ _ _ => (n_rows, n_cols)
  | ObserverGPU _ n_rows n_cols _ _ _ _ _ _ _ _ _ _ _ => (n_rows, n_cols)
  end.

Definition configured_size (cs : list Call) : option (Z * Z) :=
  match cs with
  | CallNew _ o _ _ :: _ => Some (model_size o)
  | _ => None
  end.

(** The calls of one stage of the staged initialisation. *)
Definition stage_calls (image : Observation) (body_count sample_count : nat)
    (samples : list FloatingBodySystem) : list Call :=
  [CallSamples samples;
   CallFilter image 0%float (Input_Zero (body_count * 6));
   CallResample (Z.of_nat sample_count)].

End Logged.

Arguments Logged {_} F.
Arguments Call {_}.

(** ** Vocabulary of the staged initialisation *)

Section Vocabulary.
Context `{CoordinateFilter F}.

(** Every sample has [body_count] bodies and holds those from [b] on at the
    pose outside of the image. *)
Definition pending_outside (body_count b : nat)
    (P : list FloatingBodySystem) : Prop :=
  forall s, s ∈ P ->
    length s = body_count /\
    forall j, (b <= j < body_count)%nat -> s !! j = Some outside_of_image.

(** Sample [i] holds candidate [i] as its body [b], for every candidate. *)
Definition carries_candidates (initial_states : list VectorXd) (b : nat)
    (P : list FloatingBodySystem) : Prop :=
  length P = length initial_states /\
  forall i x, initial_states !! i = Some x ->
    exists s, P !! i = Some s /\ s !! b = Some (Body_of_vector x).

(** What a stage does to the filter once the population [P] is injected. *)
Definition stage_filter (image : Observation) (body_count sample_count : nat)
    (f : F) (P : list FloatingBodySystem) : F :=
  FilterType_Resample (Z.of_nat sample_count)
    (FilterType_Filter image 0%float (Input_Zero (body_count * 6))
       (FilterType_set_Samples P f)).

(** The filter after the stages that injected the populations [Ps]. *)
Definition staged_filter (image : Observation) (body_count sample_count : nat)
    (Ps : list (list FloatingBodySystem)) (f : F) : F :=
  foldl (stage_filter image body_count sample_count) f Ps.

(** The block of sampling indices of object [b]: its 6 degrees of freedom. *)
Definition object_block (b : nat) : list nat := seq (b * 6) 6.



End Vocabulary.

(** ** A bench: stand-ins for the libraries, to run the tracker on *)

Module Bench.

(** A vector cut into [count] blocks of 12 coefficients. *)
Fixpoint blocks_of (count : nat) (v : VectorXd) : list VectorXd :=
  match count with
  | O => []
  | S count => take 12 v :: blocks_of count (drop 12 v)
  end.

#[export] Instance lib : StateFiltering := {|
  BUILD_GPU := false;
  Ros2Eigen image factor :=
    {| rows := height image / factor; cols := width image / factor; coeffs := [] |};
  getPath package := "/opt/ros/share/" +:+ package;
  get_vertices _ := [];
  get_indices _ := [];
  object_center _ _ := [0%float; 0%float; 0%float];
  pow x _ := PrimFloat.mul x x;
  log x := x;
  Body := VectorXd;
  Body_new := replicate 12 0%float;
  Body_set_position v b := v ++ drop 3 b;
  Body_of_vector v := v;
  System_of_vector v := blocks_of (length v / 12) v;
  vector_of_System s := concat s;
  homogeneous_matrix _ _ := []
|}.

(** A filter that keeps its samples through a step, weighs each of them by
    the number of pixels of the frame, and resamples by repeating its first
    sample with weight 1. *)
Record Toy := {
  toy_blocks : list (list nat);
  toy_samples : list (list VectorXd);
  toy_weights : list Z
}.

Definition toy_resampled (n : Z) (samples : list (list VectorXd))
    : list (list VectorXd) :=
  match samples with
  | [] => []
  | s :: _ => replicate (Z.to_nat n) s
  end.

#[export] Instance Toy_filter : CoordinateFilter Toy := {|
  FilterType_new _ _ b _ :=
    {| toy_blocks := b; toy_samples := []; toy_weights := [] |};
  FilterType_SamplingBlocks b f :=
    {| toy_blocks := b; toy_samples := toy_samples f; toy_weights := toy_weights f |};
  FilterType_set_Samples P f :=
    {| toy_blocks := toy_blocks f; toy_samples := P;
       toy_weights := map (fun _ => 1) P |};
  FilterType_Filter image _ _ f :=
    {| toy_blocks := toy_blocks f; toy_samples := toy_samples f;
       toy_weights := map (fun _ => rows image * cols image) (toy_samples f) |};
  FilterType_Resample n f :=
    {| toy_blocks := toy_blocks f;
       toy_samples := toy_resampled n (toy_samples f);
       toy_weights := map (fun _ => 1) (toy_resampled n (toy_samples f)) |};
  FilterType_Samples f := toy_samples f;
  FilterType_Mean f := default [] (head (toy_samples f))
|}.

Definition frame (seconds : Z) (h w : Z) : Image :=
  {| header := {| stamp := {| sec := seconds; nsec := 0 |}; frame_id := "XTION" |};
     height := h; width := w; data := [] |}.

Definition K : Matrix3d :=
  [[580%float; 0%float; 320%float];
   [0%float; 580%float; 240%float];
   [0%float; 0%float; 1%float]].

Definition params (names : list string) (count : Z) (blocks : list (list nat))
    : NodeHandle :=
  {| object_names := names;
     downsampling_factor := 2;
     use_gpu := false;
     evaluation_count := count;
     sampling_blocks := blocks;
     max_kl_divergence := 1%float;
     max_sample_count := 100;
     p_visible_init := 0.5%float;
     p_visible_visible := 0.5%float;
     p_visible_occluded := 0.5%float;
     linear_acceleration_sigma := 1%float;
     angular_acceleration_sigma := 1%float;
     damping := 1%float;
     tail_weight := 0.5%float;
     model_sigma := 0.5%float;
     sigma_factor := 0.5%float |}.

(** A candidate: twelve coefficients, the first one telling them apart. *)
Definition candidate (x : float) : VectorXd := x :: replicate 11 0%float.

Definition tracker (names : list string) (count : Z) (blocks : list (list nat))
    : MultiObjectTracker (Logged Toy) :=
  MultiObjectTracker_new (params names count blocks).

(** The block of all six sampling indices of a single object. *)
Definition one_block : list (list nat) := [seq 0 6].

(** A one-object tracker after a full-state initialisation on a 4x4 frame
    stamped 3 s, and its filter. *)
Definition ready : MultiObjectTracker (Logged Toy) :=
  default (tracker ["a"] 4 one_block)
    (Initialize [candidate 1] (frame 3 4 4) K false (tracker ["a"] 4 one_block)).

Definition ready_filter : Logged Toy :=
  default {| inner := {| toy_blocks := []; toy_samples := []; toy_weights := [] |};
             calls := [] |}
    (filter_ ready).

(** The calls recorded by the filter of a tracker, if there is one. *)
Definition calls_of (r : option (MultiObjectTracker (Logged Toy))) : list Call :=
  default [] (calls <$> (r ≫= filter_)).

(** Filter, for the tracker it leaves. *)
Definition update (ros_image : Image) (t : MultiObjectTracker (Logged Toy))
    : option (MultiObjectTracker (Logged Toy)) :=
  fst <$> Filter ros_image t.

End Bench.

(** * The controller service node: stop_object_tracker and track_object_srv *)

Module Controller.

(** ** Messages *)

Record ObjectResourceIdentifier := {
  package : string;
  directory : string;
  name : string
}.

(** [geometry_msgs::Pose]: position (x, y, z) and orientation (x, y, z, w). *)
Record Pose := {
  position : float * float * float;
  orientation : float * float * float * float
}.

(** [geometry_msgs::PoseStamped] *)
Record PoseStamped := { ps_header : Header; ps_pose : Pose }.

(** [dbot_ros_msgs::ObjectState] *)
Record ObjectState := { ori : ObjectResourceIdentifier; pose : PoseStamped }.

(** [dbot_ros_msgs::TrackObjectRequest] *)
Record TrackObjectRequest := {
  object_name : string;
  auto_detect : bool;
  auto_confirm : bool
}.

(** A message as its constructor leaves it: numbers 0, strings empty. *)
Definition Pose_new : Pose :=
  {| position := (0%float, 0%float, 0%float);
     orientation := (0%float, 0%float, 0%float, 0%float) |}.

Definition PoseStamped_new : PoseStamped :=
  {| ps_header := {| stamp := {| sec := 0; nsec := 0 |}; frame_id := "" |};
     ps_pose := Pose_new |}.

(** ** What the node talks to *)

(** The parameter server, the two service clients and the interactive marker
    initialiser, as functions on the state [W] of everything outside the
    node.  A service call returns whether it succeeded; the finder's call
    also fills in the response's [found_object]. *)
Class Node (W : Type) := {
  (** [nh_prv.getParam(key, s)]: the value, if the parameter is set *)
  getParam : string -> W -> option string;
  (** [object_tracker_service_client.call(srv)] with [srv.request.object_state] *)
  object_tracker_service_call : ObjectState -> W -> bool * W;
  (** [object_finder_service_client.call(srv)] with [srv.request.object_ori] *)
  object_finder_service_call :
    ObjectResourceIdentifier -> W -> bool * ObjectState * W;
  (** [object_initializer->set_object(package, directory, name, pose, b)] *)
  set_object : string -> string -> string -> Pose -> bool -> W -> W;
  (** [object_initializer->set_objects(package, directory, names, poses, b1, b2)] *)
  set_objects : string -> string -> list string -> list Pose -> bool -> bool -> W -> W;
  (** [object_initializer->poses()] *)
  poses : W -> list Pose;
  (** [object_initializer->wait_for_object_poses()] *)
  wait_for_object_poses : W -> bool * W
}.

Section Services.
Context `{Node W}.

(** A [std::string], empty at first, after [getParam(key, s)]. *)
Definition string_param (key : string) (w : W) : string :=
  default "" (getParam key w).

(** The request [stop_object_tracker] sends. *)
Definition stop_request (w : W) : ObjectState :=
  {| ori := {| package := string_param "objects/package" w;
               directory := string_param "objects/directory" w;
               name := "stop" |};
     pose := PoseStamped_new |}.

(** [stop_object_tracker] *)
Definition stop_object_tracker (w : W) : bool * W :=
  let '(ok, w) := object_tracker_service_call (stop_request w) w in
  if negb ok then (false, w) else (true, w).

(** [track_object_srv]; the response is never written.  In the two inner
    steps [inl w] stands for an early [return false] and [inr (p, w)] for
    going on with the local variable [pose] holding [p]; [poses()[0]] on an
    empty vector is undefined ([None]). *)
Definition track_object_srv (req : TrackObjectRequest) (w : W) : option (bool * W) :=
  if String.eqb (object_name req) "stop" then Some (stop_object_tracker w)
  else
    let '(stopped, w) := stop_object_tracker w in
    if negb stopped then Some (false, w)
    else
      let objects_package := string_param "objects/package" w in
      let objects_directory := string_param "objects/directory" w in
      found ←
        (if auto_detect req then
           let '(ok, found_object, w) :=
             object_finder_service_call
               {| package := objects_package;
                  directory := objects_directory;
                  name := object_name req +:+ ".obj" |} w in
           if negb ok then Some (inl w)
           else
             let w :=
               if negb (auto_confirm req) then
                 set_object (package (ori found_object))
                   (directory (ori found_object)) (name (ori found_object))
                   (ps_pose (pose found_object)) false w
               else w in
             Some (inr (pose found_object, w))
         else
           let w :=
             set_objects objects_package objects_directory
               [object_name req +:+ ".obj"] [] true (negb (auto_confirm req)) w in
           p ← poses w !! 0%nat;
           Some (inr ({| ps_header := ps_header PoseStamped_new; ps_pose := p |}, w)));
      match found with
      | inl w => Some (false, w)
      | inr (found_pose, w) =>
          confirmed ←
            (if negb (auto_confirm req) then
               let '(ok, w) := wait_for_object_poses w in
               if negb ok then Some (inl w)
               else
                 p ← poses w !! 0%nat;
                 Some (inr ({| ps_header := ps_header found_pose; ps_pose := p |}, w))
             else Some (inr (found_pose, w)));
          match confirmed with
          | inl w => Some (false, w)
          | inr (confirmed_pose, w) =>
              let '(ok, w) :=
                object_tracker_service_call
                  {| ori := {| package := objects_package;
                               directory := objects_directory;
                               name := object_name req +:+ ".obj" |};
                     pose := confirmed_pose |} w in
              if negb ok then Some (false, w) else Some (true, w)
          end
      end.

End Services.

(** ** The calls the node makes *)

(** A world that also remembers, oldest first, every call made on the
    service clients and the initialiser, with the result of each call. *)
Section Watched.
Context `{Node W}.

Inductive Event :=
| TrackerCall (request : ObjectState) (ok : bool)
| FinderCall (request : ObjectResourceIdentifier) (ok : bool)
| SetObject (package directory name : string) (p : Pose) (b : bool)
| SetObjects (package directory : string) (names : list string)
    (initial_poses : list Pose) (b1 b2 : bool)
| WaitForObjectPoses (ok : bool).

Record Watched := { world : W; events : list Event }.

Definition seen (e : Event) (w : W) (lw : Watched) : Watched :=
  {| world := w; events := events lw ++ [e] |}.

#[export] Instance Watched_node : Node Watched := {|
  getParam key lw := getParam key (world lw);
  object_tracker_service_call request lw :=
    let '(ok, w) := object_tracker_service_call request (world lw) in
    (ok, seen (TrackerCall request ok) w lw);
  object_finder_service_call request lw :=
    let '(ok, found, w) := object_finder_service_call request (world lw) in
    (ok, found, seen (FinderCall request ok) w lw);
  set_object package directory name p b lw :=
    seen (SetObject package directory name p b)
      (set_object package directory name p b (world lw)) lw;
  set_objects package directory names ps b1 b2 lw :=
    seen (SetObjects package directory names ps b1 b2)
      (set_objects package directory names ps b1 b2 (world lw)) lw;
  poses lw := poses (world lw);
  wait_for_object_poses lw :=
    let '(ok, w) := wait_for_object_poses (world lw) in
    (ok, seen (WaitForObjectPoses ok) w lw)
|}.

(** Whether the call of an event succeeded; the initialiser's setters
    return nothing and count as succeeded. *)
Definition event_ok (e : Event) : bool :=
  match e with
  | TrackerCall _ ok | FinderCall _ ok | WaitForObjectPoses ok => ok
  | _ => true
  end.

(** The requests sent to the object tracker service, in order. *)
Definition tracker_requests (es : list Event) : list ObjectState :=
  omap (fun e => match e with TrackerCall r _ => Some r | _ => None end) es.

(** Whether an event is a call on the interactive marker initialiser. *)
Definition on_initializer (e : Event) : bool :=
  match e with
  | SetObject _ _ _ _ _ | SetObjects _ _ _ _ _ _ | WaitForObjectPoses _ => true
  | _ => false
  end.

(** The request that starts the tracker on the object of [req], with the
    package and directory configured in the world [w]. *)
Definition run_request (req : TrackObjectRequest) (w : W) (p : PoseStamped)
    : ObjectState :=
  {| ori := {| package := string_param "objects/package" w;
               directory := string_param "objects/directory" w;
               name := object_name req +:+ ".obj" |};
     pose := p |}.

End Watched.

Arguments Watched W : clear implicits.

End Controller.

(** ** Frame sequences and candidates *)

Section Feeding.
Context `{CoordinateFilter F}.

(** [Filter] on each frame of a sequence in turn, as the node does for the
    frames it receives: the tracker it leaves and the means it returned. *)
Fixpoint Filter_each (frames : list Image) (t : MultiObjectTracker F)
    : option (MultiObjectTracker F * list VectorXd) :=
  match frames with
  | [] => Some (t, [])
  | ros_image :: later =>
      r ← Filter ros_image t;
      r' ← Filter_each later r.1;
      Some (r'.1, r.2 :: r'.2)
  end.

(** Every body of every sample is the block of one of the candidates, for
    the objects before [b]. *)
Definition from_candidates (initial_states : list VectorXd) (b : nat)
    (P : list FloatingBodySystem) : Prop :=
  forall s j, s ∈ P -> (j < b)%nat ->
    exists x, x ∈ initial_states /\ s !! j = Some (Body_of_vector x).

End Feeding.

(** ** A desk: stand-ins for the services and the initialiser *)

Module Desk.
Import Controller.

(** The parameters, whether each service answers, what the finder reports,
    whether the user confirms, and the poses the initialiser holds. *)
Record World := {
  parameters : list (string * string);
  tracker_up : bool;
  finder_up : bool;
  seen_pose : PoseStamped;
  user_confirms : bool;
  marker_poses : list Pose
}.

Definition with_poses (ps : list Pose) (w : World) : World :=
  {| parameters := parameters w;
     tracker_up := tracker_up w;
     finder_up := finder_up w;
     seen_pose := seen_pose w;
     user_confirms := user_confirms w;
     marker_poses := ps |}.

#[export] Instance Desk_node : Node World := {|
  getParam key w :=
    snd <$> head (filter (fun kv => bool_decide (kv.1 = key)) (parameters w));
  object_tracker_service_call _ w := (tracker_up w, w);
  object_finder_service_call request w :=
    (finder_up w, {| ori := request; pose := seen_pose w |}, w);
  set_object _ _ _ p _ w := with_poses [p] w;
  set_objects _ _ _ ps _ _ w := with_poses ps w;
  poses w := marker_poses w;
  wait_for_object_poses w := (user_confirms w, w)
|}.

Definition on_the_table : PoseStamped :=
  {| ps_header := {| stamp := {| sec := 9; nsec := 0 |}; frame_id := "XTION" |};
     ps_pose := {| position := (0%float, 0%float, 1%float);
                   orientation := (0%float, 0%float, 0%float, 1%float) |} |}.

Definition desk (tracker finder confirms : bool) : Watched World :=
  {| world := {| parameters := [("objects/package", "object_meshes");
                                ("objects/directory", "object_models")];
                 tracker_up := tracker;
                 finder_up := finder;
                 seen_pose := on_the_table;
                 user_confirms := confirms;
                 marker_poses := [] |};
     events := [] |}.

(** A desk where everything answers but no parameter is set. *)
Definition unconfigured : Watched World :=
  {| world := {| parameters := [];
                 tracker_up := true;
                 finder_up := true;
                 seen_pose := on_the_table;
                 user_confirms := true;
                 marker_poses := [] |};
     events := [] |}.

Definition request (object : string) (detect confirm : bool) : TrackObjectRequest :=
  {| object_name := object; auto_detect := detect; auto_confirm := confirm |}.

(** The result and the world of a run that is defined. *)
Definition result_of (r : option (bool * Watched World)) : bool :=
  default false (fst <$> r).

Definition world_of (r : option (bool * Watched World)) : Watched World :=
  default (desk false false false) (snd <$> r).

End Desk.

(** ** A replay: frames fed to the bench tracker *)

Module Replay.
Import Bench.

(** The initialised one-object tracker fed frames stamped 5 s and 7 s. *)
Definition fed : option (MultiObjectTracker (Logged Toy) * list VectorXd) :=
  Filter_each [frame 5 4 4; frame 7 4 4] ready.

Definition fed_tracker : MultiObjectTracker (Logged Toy) := default ready (fst <$> fed).

Definition fed_means : list VectorXd := default [] (snd <$> fed).

End Replay.

(** * Properties *)

(** ** Doubles *)

(** [t - t] is [+0] for every finite double. *)
Lemma float_sub_diag (t : float) :
  is_finite t = true -> PrimFloat.sub t t = 0%float.
Proof.
  unfold is_finite, is_nan, is_infinity. intros Hfin.
  apply Prim2SF_inj. rewrite FloatAxioms.sub_spec.
  rewrite !FloatAxioms.eqb_spec, FloatAxioms.abs_spec in Hfin.
  destruct (Prim2SF t) as [s | s | | s m e].
  - destruct s; reflexivity.
  - destruct s; discriminate Hfin.
  - discriminate Hfin.
  - unfold SF64sub, SFsub. cbv zeta.
    replace (_ - _) with 0; [reflexivity|].
    symmetry. apply Z.sub_diag.
Qed.

Lemma elapsed_unset (now last : Scalar) :
  is_finite now = true -> is_nan last = true -> elapsed now last = 0%float.
Proof.
  intros Hfin Hnan. unfold elapsed. rewrite Hnan. by apply float_sub_diag.
Qed.

Lemma elapsed_set (now last : Scalar) :
  is_nan last = false -> elapsed now last = PrimFloat.sub now last.
Proof. intros Hnan. unfold elapsed. by rewrite Hnan. Qed.

Section Staging.
Context `{CoordinateFilter F}.

(** ** Injecting the candidates of one object *)

Lemma assign_body_Some body_index x s s' :
  assign_body body_index x s = Some s' ->
  (body_index < length s)%nat /\ s' = <[body_index := Body_of_vector x]> s.
Proof.
  unfold assign_body. case_decide; [|done]. intros [= <-]. done.
Qed.

Lemma inject_from_Some body_index initial_states :
  forall P state_index P',
    inject_from body_index initial_states state_index P = Some P' ->
    length P' = length P /\
    forall j s', P' !! j = Some s' ->
      exists s x, P !! j = Some s /\
                  initial_states !! (state_index + j)%nat = Some x /\
                  assign_body body_index x s = Some s'.
Proof.
  induction P as [|s P IH]; intros i P' Hin; simpl in Hin.
  - injection Hin as <-. split; [done|]. intros j s' Hj. done.
  - destruct (initial_states !! i) as [x|] eqn:Hx; [|done]. simpl in Hin.
    destruct (assign_body body_index x s) as [s1|] eqn:Hs1; [|done]. simpl in Hin.
    destruct (inject_from body_index initial_states (S i) P) as [P1|] eqn:HP1;
      [|done].
    simpl in Hin. injection Hin as <-.
    destruct (IH _ _ HP1) as [Hlen Hget]. split; [simpl; lia|].
    intros [|j] s' Hj; simpl in Hj.
    + injection Hj as <-. exists s, x. by rewrite Nat.add_0_r.
    + destruct (Hget _ _ Hj) as (s0 & x0 & ? & ? & ?).
      exists s0, x0. split_and!; [done| |done].
      by replace (i + S j)%nat with (S i + j)%nat by lia.
Qed.

Lemma inject_from_total body_index initial_states :
  forall P state_index,
    (state_index + length P <= length initial_states)%nat ->
    (forall s, s ∈ P -> (body_index < length s)%nat) ->
    is_Some (inject_from body_index initial_states state_index P).
Proof.
  induction P as [|s P IH]; intros i Hlen Hbody; simpl; [done|].
  simpl in Hlen.
  destruct (lookup_lt_is_Some_2 initial_states i) as [x ->]; [lia|]. simpl.
  unfold assign_body at 1. rewrite decide_True by (apply Hbody; left). simpl.
  destruct (IH (S i)) as [P1 ->]; [lia| |done].
  intros s0 Hs0. apply Hbody. by right.
Qed.


(** ** One stage *)

Lemma default_state_pending body_count (initial_states : list VectorXd) :
  pending_outside body_count 0
    (map (fun _ => default_state body_count) initial_states).
Proof.
  intros s Hs. apply list_elem_of_fmap in Hs as (x & -> & _).
  unfold default_state. rewrite length_map, length_seq. split; [done|].
  intros j [_ Hj]. rewrite list_lookup_fmap, lookup_seq_lt by done. done.
Qed.

Lemma inject_spec body_count body_index initial_states P :
  length P = length initial_states ->
  pending_outside body_count body_index P ->
  (body_index < body_count)%nat ->
  exists P',
    inject body_index initial_states P = Some P' /\
    carries_candidates initial_states body_index P' /\
    pending_outside body_count (S body_index) P' /\
    forall i j, j <> body_index ->
      P' !! i ≫= (.!! j) = P !! i ≫= (.!! j).
Proof.
  intros Hlen Hpend Hb. unfold inject.
  destruct (inject_from_total body_index initial_states P 0) as [P' HP'].
  { lia. }
  { intros s Hs. destruct (Hpend s Hs) as [-> _]. done. }
  exists P'. split; [done|].
  destruct (inject_from_Some _ _ _ _ _ HP') as [Hlen' Hget].
  split_and!.
  - split; [congruence|]. intros i x Hx.
    destruct (lookup_lt_is_Some_2 P' i) as [s' Hs'].
    { rewrite Hlen', Hlen. by eapply lookup_lt_Some. }
    destruct (Hget _ _ Hs') as (s & x' & Hs & Hx' & Hass).
    simpl in Hx'. rewrite Hx in Hx'. injection Hx' as <-.
    apply assign_body_Some in Hass as [Hlt ->].
    exists (<[body_index := Body_of_vector x]> s). split; [done|].
    by apply list_lookup_insert_eq.
  - intros s' Hs'. apply list_elem_of_lookup in Hs' as [i Hi].
    destruct (Hget _ _ Hi) as (s & x & Hs & _ & Hass).
    apply assign_body_Some in Hass as [Hlt ->].
    destruct (Hpend s) as [Hk Hout]; [by eapply list_elem_of_lookup_2|].
    rewrite length_insert. split; [done|].
    intros j Hj. rewrite list_lookup_insert_ne by lia. apply Hout. lia.
  - intros i j Hj. destruct (P' !! i) as [s'|] eqn:Hi.
    + destruct (Hget _ _ Hi) as (s & x & -> & _ & Hass).
      apply assign_body_Some in Hass as [Hlt ->]. simpl.
      by apply list_lookup_insert_ne.
    + apply lookup_ge_None in Hi. rewrite Hlen' in Hi.
      apply lookup_ge_None in Hi. by rewrite Hi.
Qed.

Context `{!FilterContract}.

Lemma stage_filter_selects image body_count sample_count f P s :
  s ∈ FilterType_Samples (stage_filter image body_count sample_count f P) ->
  s ∈ P.
Proof.
  unfold stage_filter. intros Hs.
  apply Resample_selects, Filter_zero_selects in Hs.
  by rewrite Samples_set_Samples in Hs.
Qed.

Lemma stage_filter_length image body_count f P :
  length (FilterType_Samples (stage_filter image body_count (length P) f P))
  = length P.
Proof.
  destruct P as [|s P].
  - destruct (FilterType_Samples _) as [|s l] eqn:E; [done|].
    assert (s ∈ @nil FloatingBodySystem) as Hs.
    { eapply stage_filter_selects. rewrite E. left. }
    by apply elem_of_nil in Hs.
  - unfold stage_filter. rewrite Resample_length.
    + by rewrite Nat2Z.id.
    + simpl. lia.
    + apply Filter_nonempty. by rewrite Samples_set_Samples.
Qed.

Lemma stage_spec image body_count body_index initial_states P f :
  length P = length initial_states ->
  pending_outside body_count body_index P ->
  (body_index < body_count)%nat ->
  exists P',
    inject body_index initial_states P = Some P' /\
    carries_candidates initial_states body_index P' /\
    (forall i j, j <> body_index -> P' !! i ≫= (.!! j) = P !! i ≫= (.!! j)) /\
    let f' := stage_filter image body_count (length initial_states) f P' in
    stage image body_count initial_states body_index (P, f)
      = Some (FilterType_Samples f', f') /\
    length (FilterType_Samples f') = length initial_states /\
    pending_outside body_count (S body_index) (FilterType_Samples f').
Proof.
  intros Hlen Hpend Hb.
  destruct (inject_spec _ _ _ _ Hlen Hpend Hb) as (P' & Hinj & Hcar & Hout & Hkeep).
  exists P'. split_and!; [done..|]. cbv zeta.
  assert (length P' = length initial_states) as HlenP' by apply Hcar.
  split_and!.
  - unfold stage. simpl. rewrite Hinj. simpl. by rewrite HlenP'.
  - rewrite <- HlenP' at 1. rewrite stage_filter_length. done.
  - intros s Hs. apply Hout. by eapply stage_filter_selects.
Qed.


(** ** The loop over the objects *)


Lemma stages_spec image body_count initial_states :
  forall n b P f,
    length P = length initial_states ->
    pending_outside body_count b P ->
    (b + n <= body_count)%nat ->
    exists Ps P1,
      let f1 := staged_filter image body_count (length initial_states) Ps f in
      stages image body_count initial_states (seq b n) (P, f) = Some (P1, f1) /\
      length Ps = n /\
      (forall i Pi, Ps !! i = Some Pi ->
         carries_candidates initial_states (b + i) Pi) /\
      length P1 = length initial_states /\
      pending_outside body_count (b + n) P1 /\
      ((0 < n)%nat -> P1 = FilterType_Samples f1 /\
                      exists g, f1 = FilterType_Resample
                                       (Z.of_nat (length initial_states)) g).
Proof.
  induction n as [|n IH]; intros b P f Hlen Hpend Hb.
  - exists [], P. cbv zeta. simpl. rewrite Nat.add_0_r.
    split_and!; [done..| |done|done|lia].
    intros i Pi Hi. done.
  - destruct (stage_spec image body_count b initial_states P f Hlen Hpend)
      as (P' & _ & Hcar & _ & Hstage & Hlen' & Hpend'); [lia|].
    cbv zeta in Hstage, Hlen', Hpend'.
    destruct (IH (S b) _ (stage_filter image body_count (length initial_states) f P')
                Hlen' Hpend') as (Ps & P1 & Hrun & HPs & Hcars & HlenP1 & HpendP1 & Hlast);
      [lia|].
    cbv zeta in Hrun, Hlast.
    exists (P' :: Ps), P1. cbv zeta.
    split_and!.
    + simpl. rewrite Hstage. simpl. exact Hrun.
    + simpl. by rewrite HPs.
    + intros [|i] Pi Hi; simpl in Hi.
      * injection Hi as <-. by rewrite Nat.add_0_r.
      * replace (b + S i)%nat with (S b + i)%nat by lia. by apply Hcars.
    + done.
    + by replace (b + S n)%nat with (S b + n)%nat by lia.
    + intros _. destruct n as [|n].
      * destruct Ps; [|done]. simpl in Hrun. injection Hrun as <-.
        simpl. split; [done|]. unfold stage_filter. eauto.
      * apply Hlast. lia.
Qed.

End Staging.

(** ** What the logged filter records *)

Section LoggedFacts.
Context `{CoordinateFilter F}.

Lemma Logged_contract : FilterContract (F := F) -> FilterContract (F := Logged F).
Proof.
  intros C. split; simpl.
  - intros P f. apply Samples_set_Samples.
  - intros image u f s. apply Filter_zero_selects.
  - intros image dt u f. apply Filter_nonempty.
  - intros n f s. apply Resample_selects.
  - intros n f. apply Resample_length.
Qed.

Lemma calls_SamplingBlocks b (f : Logged F) :
  calls (FilterType_SamplingBlocks b f) = calls f ++ [CallSamplingBlocks b].
Proof. reflexivity. Qed.

Lemma calls_set_Samples P (f : Logged F) :
  calls (FilterType_set_Samples P f) = calls f ++ [CallSamples P].
Proof. reflexivity. Qed.

Lemma calls_Filter image dt u (f : Logged F) :
  calls (FilterType_Filter image dt u f) = calls f ++ [CallFilter image dt u].
Proof. reflexivity. Qed.

Lemma calls_Resample n (f : Logged F) :
  calls (FilterType_Resample n f) = calls f ++ [CallResample n].
Proof. reflexivity. Qed.

Lemma calls_staged_filter image body_count sample_count Ps (f : Logged F) :
  calls (staged_filter image body_count sample_count Ps f)
  = calls f ++ concat (map (stage_calls image body_count sample_count) Ps).
Proof.
  unfold staged_filter. revert f.
  induction Ps as [|P Ps IH]; intros f; cbn [foldl map concat].
  - by rewrite app_nil_r.
  - rewrite IH. simpl. by rewrite <- !app_assoc.
Qed.

End LoggedFacts.


(** ** Initialize, as a composition of filter calls *)

Section InitializeFacts.
Context `{CoordinateFilter F}.

Lemma Initialize_full_eq (initial_states : list VectorXd) ros_image camera_matrix
    (t : MultiObjectTracker F) M :
  operating_size (node_handle_ t) = Some M ->
  Initialize initial_states ros_image camera_matrix false t
  = Some (with_filter t
      (FilterType_SamplingBlocks (sampling_blocks (node_handle_ t))
        (FilterType_Resample M
          (FilterType_Filter (Ros2Eigen ros_image (downsampling_factor_ t)) 0%float
            (Input_Zero (length (object_names_ t) * 6))
            (FilterType_set_Samples (map System_of_vector initial_states)
              (FilterType_SamplingBlocks
                (dependent_sampling_blocks (length (object_names_ t)))
                (new_filter t initial_states ros_image camera_matrix))))))).
Proof. intros HM. unfold Initialize. simpl. rewrite HM. done. Qed.

Lemma Initialize_partial_eq `{FC : !FilterContract} (initial_states : list VectorXd)
    ros_image camera_matrix (t : MultiObjectTracker F) M :
  operating_size (node_handle_ t) = Some M ->
  exists Ps,
    length Ps = length (object_names_ t) /\
    (forall b P, Ps !! b = Some P -> carries_candidates initial_states b P) /\
    Initialize initial_states ros_image camera_matrix true t
    = Some (with_filter t
        (FilterType_SamplingBlocks (sampling_blocks (node_handle_ t))
          (FilterType_Resample M
            (staged_filter (Ros2Eigen ros_image (downsampling_factor_ t))
              (length (object_names_ t)) (length initial_states) Ps
              (FilterType_SamplingBlocks
                (dependent_sampling_blocks (length (object_names_ t)))
                (new_filter t initial_states ros_image camera_matrix)))))).
Proof.
  intros HM.
  destruct (stages_spec (Ros2Eigen ros_image (downsampling_factor_ t))
              (length (object_names_ t)) initial_states
              (length (object_names_ t)) 0
              (map (fun _ => default_state (length (object_names_ t))) initial_states)
              (FilterType_SamplingBlocks
                (dependent_sampling_blocks (length (object_names_ t)))
                (new_filter t initial_states ros_image camera_matrix)))
    as (Ps & P1 & Hrun & HPs & Hcar & _).
  { by rewrite length_map. }
  { apply default_state_pending. }
  { lia. }
  cbv zeta in Hrun. exists Ps. split_and!; [done|exact Hcar|].
  unfold Initialize, staged_start. rewrite Hrun. simpl. rewrite HM. done.
Qed.

End InitializeFacts.

Section TraceFacts.
Context `{CoordinateFilter F}.

Lemma calls_new_filter (t : MultiObjectTracker (Logged F))
    (initial_states : list VectorXd) ros_image camera_matrix :
  exists process observation_model,
    calls (new_filter t initial_states ros_image camera_matrix)
    = [CallNew process observation_model (sampling_blocks (node_handle_ t))
         (max_kl_divergence (node_handle_ t))].
Proof. unfold new_filter. simpl. eauto. Qed.

Lemma schedule_at_steps_stages image body_count sample_count current Ps rest :
  schedule_at_steps current
    (concat (map (stage_calls image body_count sample_count) Ps) ++ rest)
  = replicate (length Ps) current ++ schedule_at_steps current rest.
Proof.
  induction Ps as [|P Ps IH]; simpl; [done|]. by rewrite IH.
Qed.

Lemma step_times_stages image body_count sample_count
    (Ps : list (list FloatingBodySystem)) :
  step_times (concat (map (stage_calls image body_count sample_count) Ps))
  = replicate (length Ps) 0%float.
Proof.
  induction Ps as [|P Ps IH]; simpl; [done|].
  unfold step_times in *. simpl. by rewrite IH.
Qed.

End TraceFacts.


(** * The claims *)

(** C1: staged partial initialisation with k objects and N candidates runs
    exactly k stages, in object order 0..k-1; stage b hands the filter a
    population whose sample i carries candidate i as body b, runs one filter
    step and resamples to N; after the last stage comes exactly one resample
    to the operating size (and the configured schedule). *)
Theorem Initialize_partial_stage_calls `{CoordinateFilter F} `{FC : !FilterContract}
    (initial_states : list VectorXd) (ros_image : Image) (camera_matrix : Matrix3d)
    (t : MultiObjectTracker (Logged F)) (M : Z) :
  operating_size (node_handle_ t) = Some M ->
  exists t' f' Ps process observation_model,
    Initialize initial_states ros_image camera_matrix true t = Some t' /\
    filter_ t' = Some f' /\
    length Ps = length (object_names_ t) /\
    (forall b P, Ps !! b = Some P -> carries_candidates initial_states b P) /\
    calls f'
    = [CallNew process observation_model (sampling_blocks (node_handle_ t))
         (max_kl_divergence (node_handle_ t));
       CallSamplingBlocks (dependent_sampling_blocks (length (object_names_ t)))]
      ++ concat (map (stage_calls (Ros2Eigen ros_image (downsampling_factor_ t))
                        (length (object_names_ t)) (length initial_states)) Ps)
      ++ [CallResample M; CallSamplingBlocks (sampling_blocks (node_handle_ t))].
Proof.
  intros HM.
  destruct (Initialize_partial_eq (FC := Logged_contract _)
              initial_states ros_image camera_matrix t M HM)
    as (Ps & HPs & Hcar & Hinit).
  destruct (calls_new_filter t initial_states ros_image camera_matrix)
    as (process & observation_model & Hnew).
  eexists _, _, Ps, process, observation_model.
  split_and!; [exact Hinit|reflexivity|done|done|].
  cbn [filter_ with_filter].
  rewrite calls_SamplingBlocks, calls_Resample, calls_staged_filter,
    calls_SamplingBlocks, Hnew.
  by rewrite <- !app_assoc.
Qed.

Lemma map_replicate {A B} (g : A -> B) n x :
  map g (replicate n x) = replicate n (g x).
Proof. induction n as [|n IH]; simpl; [done|]. by rewrite IH. Qed.

(** C2 (as amended): in staged partial initialisation the schedule in force
    at the filter step of every stage is the one block of all 6k sampling
    indices, installed once before the first stage; it is not narrowed to the
    block of the stage's object.  Every stage's filter step runs with zero
    elapsed time. *)
Theorem Initialize_partial_schedule `{CoordinateFilter F} `{FC : !FilterContract}
    (initial_states : list VectorXd) (ros_image : Image) (camera_matrix : Matrix3d)
    (t : MultiObjectTracker (Logged F)) (M : Z) :
  operating_size (node_handle_ t) = Some M ->
  exists t' f',
    Initialize initial_states ros_image camera_matrix true t = Some t' /\
    filter_ t' = Some f' /\
    schedule_at_steps [] (calls f')
    = replicate (length (object_names_ t))
        [seq 0 (length (object_names_ t) * 6)] /\
    step_times (calls f') = replicate (length (object_names_ t)) 0%float.
Proof.
  intros HM.
  destruct (Initialize_partial_eq (FC := Logged_contract _)
              initial_states ros_image camera_matrix t M HM)
    as (Ps & HPs & Hcar & Hinit).
  destruct (calls_new_filter t initial_states ros_image camera_matrix)
    as (process & observation_model & Hnew).
  eexists _, _. split_and!; [exact Hinit|reflexivity|..];
    cbn [filter_ with_filter];
    rewrite calls_SamplingBlocks, calls_Resample, calls_staged_filter,
      calls_SamplingBlocks, Hnew, <- !app_assoc.
  - cbn [app schedule_at_steps].
    rewrite schedule_at_steps_stages, HPs. simpl. by rewrite app_nil_r.
  - unfold step_times. rewrite !omap_app. cbn [omap].
    fold (step_times (concat (map (stage_calls (Ros2Eigen ros_image (downsampling_factor_ t))
             (length (object_names_ t)) (length initial_states)) Ps))).
    rewrite step_times_stages, HPs. simpl. by rewrite app_nil_r.
Qed.


(** C10: with no candidate state, Initialize rejects nothing.  In full-state
    mode it hands the filter an empty sample set; in partial mode every one
    of the k stages hands it an empty sample set and resamples to size 0.
    Both go on to the final resample. *)
Theorem Initialize_without_candidates `{CoordinateFilter F} `{FC : !FilterContract}
    (ros_image : Image) (camera_matrix : Matrix3d)
    (t : MultiObjectTracker (Logged F)) (M : Z) :
  operating_size (node_handle_ t) = Some M ->
  let body_count := length (object_names_ t) in
  let image := Ros2Eigen ros_image (downsampling_factor_ t) in
  let nh := node_handle_ t in
  (exists t' f' process observation_model,
     Initialize [] ros_image camera_matrix false t = Some t' /\
     filter_ t' = Some f' /\
     calls f'
     = [CallNew process observation_model (sampling_blocks nh) (max_kl_divergence nh);
        CallSamplingBlocks (dependent_sampling_blocks body_count);
        CallSamples [];
        CallFilter image 0%float (Input_Zero (body_count * 6));
        CallResample M;
        CallSamplingBlocks (sampling_blocks nh)]) /\
  (exists t' f' process observation_model,
     Initialize [] ros_image camera_matrix true t = Some t' /\
     filter_ t' = Some f' /\
     calls f'
     = [CallNew process observation_model (sampling_blocks nh) (max_kl_divergence nh);
        CallSamplingBlocks (dependent_sampling_blocks body_count)]
       ++ concat (replicate body_count
                    [CallSamples [];
                     CallFilter image 0%float (Input_Zero (body_count * 6));
                     CallResample 0])
       ++ [CallResample M; CallSamplingBlocks (sampling_blocks nh)]).
Proof.
  intros HM body_count image nh. subst body_count image nh.
  destruct (calls_new_filter t [] ros_image camera_matrix)
    as (process & observation_model & Hnew).
  split.
  - eexists _, _, process, observation_model.
    split_and!; [by apply Initialize_full_eq|reflexivity|].
    cbn [filter_ with_filter].
    rewrite calls_SamplingBlocks, calls_Resample, calls_Filter, calls_set_Samples,
      calls_SamplingBlocks, Hnew.
    reflexivity.
  - destruct (Initialize_partial_eq (FC := Logged_contract _)
                [] ros_image camera_matrix t M HM)
      as (Ps & HPs & Hcar & Hinit).
    assert (Ps = replicate (length (object_names_ t)) []) as ->.
    { symmetry. apply replicate_as_Forall. split; [done|].
      apply Forall_lookup. intros i P HP.
      destruct (Hcar i P HP) as [Hlen _]. by destruct P. }
    eexists _, _, process, observation_model.
    split_and!; [exact Hinit|reflexivity|].
    cbn [filter_ with_filter].
    rewrite calls_SamplingBlocks, calls_Resample, calls_staged_filter,
      calls_SamplingBlocks, Hnew, <- !app_assoc.
    rewrite map_replicate.
    reflexivity.
Qed.

(** C7 (as amended): in full-state mode the population handed to the filter
    is exactly the candidate states, one sample per candidate and in their
    order, whatever the configured population size; then come one filter step
    on the first frame with zero elapsed time, under the schedule of the one
    block of all 6k indices, one resample to the operating size, and the
    configured schedule. *)
Theorem Initialize_full_calls `{CoordinateFilter F}
    (initial_states : list VectorXd) (ros_image : Image) (camera_matrix : Matrix3d)
    (t : MultiObjectTracker (Logged F)) (M : Z) :
  operating_size (node_handle_ t) = Some M ->
  let body_count := length (object_names_ t) in
  let nh := node_handle_ t in
  exists t' f' process observation_model,
    Initialize initial_states ros_image camera_matrix false t = Some t' /\
    filter_ t' = Some f' /\
    calls f'
    = [CallNew process observation_model (sampling_blocks nh) (max_kl_divergence nh);
       CallSamplingBlocks [seq 0 (body_count * 6)];
       CallSamples (map System_of_vector initial_states);
       CallFilter (Ros2Eigen ros_image (downsampling_factor_ t)) 0%float
         (Input_Zero (body_count * 6));
       CallResample M;
       CallSamplingBlocks (sampling_blocks nh)].
Proof.
  intros HM body_count nh.
  destruct (calls_new_filter t initial_states ros_image camera_matrix)
    as (process & observation_model & Hnew).
  eexists _, _, process, observation_model.
  split_and!; [by apply Initialize_full_eq|reflexivity|].
  cbn [filter_ with_filter].
  rewrite calls_SamplingBlocks, calls_Resample, calls_Filter, calls_set_Samples,
    calls_SamplingBlocks, Hnew.
  reflexivity.
Qed.



(** ** Filter *)

Lemma is_finite_not_nan (x : float) : is_finite x = true -> is_nan x = false.
Proof.
  unfold is_finite. intros Hfin. apply negb_true_iff, orb_false_iff in Hfin.
  apply Hfin.
Qed.

Lemma Filter_eq `{CoordinateFilter F} (ros_image : Image)
    (t : MultiObjectTracker F) (f : F) :
  filter_ t = Some f ->
  let now := toSec (stamp (header ros_image)) in
  let f' :=
    FilterType_Filter (Ros2Eigen ros_image (downsampling_factor_ t))
      (elapsed now (last_measurement_time_ t))
      (Input_Zero (length (object_names_ t) * 6)) f in
  exists t',
    Filter ros_image t = Some (t', vector_of_System (FilterType_Mean f')) /\
    filter_ t' = Some f' /\
    last_measurement_time_ t' = now /\
    node_handle_ t' = node_handle_ t /\
    object_names_ t' = object_names_ t /\
    downsampling_factor_ t' = downsampling_factor_ t.
Proof.
  intros Hf now f'. unfold Filter. rewrite Hf. simpl.
  eexists. split; [reflexivity|]. done.
Qed.

(** C4: on an initialised tracker, Filter on a frame stamped [now] makes
    exactly one filter step, with the elapsed time [now] minus the stored
    clock (zero when the clock is unset) and the zero input of dimension
    6 times the object count; it stores [now] as the clock and returns the
    mean of the filter after that step. *)
Theorem Filter_one_step `{CoordinateFilter F} (ros_image : Image)
    (t : MultiObjectTracker (Logged F)) (f : Logged F) :
  filter_ t = Some f ->
  let now := toSec (stamp (header ros_image)) in
  is_finite now = true ->
  exists t' f' delta_time,
    Filter ros_image t = Some (t', vector_of_System (FilterType_Mean f')) /\
    filter_ t' = Some f' /\
    (is_nan (last_measurement_time_ t) = true -> delta_time = 0%float) /\
    (is_nan (last_measurement_time_ t) = false ->
       delta_time = PrimFloat.sub now (last_measurement_time_ t)) /\
    calls f'
    = calls f ++ [CallFilter (Ros2Eigen ros_image (downsampling_factor_ t))
                    delta_time (replicate (length (object_names_ t) * 6) 0%float)] /\
    inner f'
    = FilterType_Filter (Ros2Eigen ros_image (downsampling_factor_ t)) delta_time
        (replicate (length (object_names_ t) * 6) 0%float) (inner f) /\
    last_measurement_time_ t' = now.
Proof.
  intros Hf now Hfin.
  destruct (Filter_eq ros_image t f Hf) as (t' & HFilter & Hf' & Hclock & _).
  eexists t', _, (elapsed now (last_measurement_time_ t)).
  split_and!; [exact HFilter|exact Hf'| | |reflexivity|reflexivity|exact Hclock].
  - by apply elapsed_unset.
  - apply elapsed_set.
Qed.

(** C5 (as amended): Filter compares the frame with nothing.  On an
    initialised tracker every frame, of whatever dimensions, is converted and
    handed to one filter step, the filter becomes what that step makes of it,
    and the mean of the result is returned: there is no failure result. *)
Theorem Filter_accepts_every_frame `{CoordinateFilter F} (ros_image : Image)
    (t : MultiObjectTracker F) (f : F) :
  filter_ t = Some f ->
  exists t' f',
    Filter ros_image t = Some (t', vector_of_System (FilterType_Mean f')) /\
    filter_ t' = Some f' /\
    f' = FilterType_Filter (Ros2Eigen ros_image (downsampling_factor_ t))
           (elapsed (toSec (stamp (header ros_image))) (last_measurement_time_ t))
           (Input_Zero (length (object_names_ t) * 6)) f.
Proof.
  intros Hf.
  destruct (Filter_eq ros_image t f Hf) as (t' & HFilter & Hf' & _).
  eauto.
Qed.

(** C3 (as amended): Initialize leaves the clock as it finds it; only the
    constructor unsets it and only Filter sets it.  So the first Filter
    after an initialisation computes its elapsed time from the clock as it
    was before that initialisation: zero when the clock was unset (as in a
    newly constructed tracker), else the time since the last Filter before
    it.  The second frame's elapsed time is the difference of the stamps. *)
Theorem Initialize_keeps_clock `{CoordinateFilter F}
    (initial_states : list VectorXd) (ros_image : Image) (camera_matrix : Matrix3d)
    (state_is_partial : bool) (t t1 : MultiObjectTracker F) (frame0 frame1 : Image) :
  Initialize initial_states ros_image camera_matrix state_is_partial t = Some t1 ->
  let now0 := toSec (stamp (header frame0)) in
  let now1 := toSec (stamp (header frame1)) in
  is_finite now0 = true ->
  (forall nh, is_nan (last_measurement_time_ (MultiObjectTracker_new (F := F) nh)) = true) /\
  last_measurement_time_ t1 = last_measurement_time_ t /\
  exists f1 t2 m0 t3 m1 delta_time,
    filter_ t1 = Some f1 /\
    Filter frame0 t1 = Some (t2, m0) /\
    Filter frame1 t2 = Some (t3, m1) /\
    (is_nan (last_measurement_time_ t) = true -> delta_time = 0%float) /\
    (is_nan (last_measurement_time_ t) = false ->
       delta_time = PrimFloat.sub now0 (last_measurement_time_ t)) /\
    filter_ t3
    = Some (FilterType_Filter (Ros2Eigen frame1 (downsampling_factor_ t))
              (PrimFloat.sub now1 now0) (Input_Zero (length (object_names_ t) * 6))
              (FilterType_Filter (Ros2Eigen frame0 (downsampling_factor_ t))
                 delta_time (Input_Zero (length (object_names_ t) * 6)) f1)).
Proof.
  intros Hinit now0 now1 Hfin. split; [done|].
  unfold Initialize in Hinit.
  apply bind_Some in Hinit as (f0 & _ & Hinit).
  apply bind_Some in Hinit as (n & _ & Hinit).
  injection Hinit as <-. split; [done|].
  set (f1 := FilterType_SamplingBlocks _ _).
  destruct (Filter_eq frame0 (with_filter t f1) f1 eq_refl)
    as (t2 & HF0 & Hf2 & Hclock2 & _ & Hnames2 & Hfactor2).
  destruct (Filter_eq frame1 t2 _ Hf2)
    as (t3 & HF1 & Hf3 & _).
  eexists f1, t2, _, t3, _, (elapsed now0 (last_measurement_time_ t)).
  split_and!; [done|exact HF0|exact HF1| | |].
  - by apply elapsed_unset.
  - apply elapsed_set.
  - rewrite Hf3, Hclock2, Hnames2, Hfactor2.
    rewrite (elapsed_set now1) by by apply is_finite_not_nan.
    reflexivity.
Qed.

(** * More on the tracker *)

Section InitializeEdges.
Context `{CoordinateFilter F}.

Lemma operating_size_None (nh : NodeHandle) :
  operating_size nh = None <-> sampling_blocks nh = [].
Proof.
  unfold operating_size. destruct (sampling_blocks nh) as [|b l].
  - done.
  - rewrite decide_False by (simpl; lia). done.
Qed.

(** X8: [Initialize] divides by the number of sampling blocks: it is
    undefined exactly when the configured block list is empty, in either
    mode and whatever the candidates. *)
Theorem Initialize_undefined_iff `{FC : !FilterContract}
    (initial_states : list VectorXd) (ros_image : Image) (camera_matrix : Matrix3d)
    (state_is_partial : bool) (t : MultiObjectTracker F) :
  Initialize initial_states ros_image camera_matrix state_is_partial t = None
  <-> sampling_blocks (node_handle_ t) = [].
Proof.
  split.
  - intros Hnone. apply operating_size_None.
    destruct (operating_size (node_handle_ t)) as [M|] eqn:HM; [|done].
    destruct state_is_partial.
    + destruct (Initialize_partial_eq initial_states ros_image camera_matrix t M HM)
        as (Ps & _ & _ & Hinit). congruence.
    + rewrite (Initialize_full_eq _ _ _ _ _ HM) in Hnone. done.
  - intros Hblocks. apply operating_size_None in Hblocks.
    unfold Initialize. rewrite Hblocks.
    destruct state_is_partial; [|done].
    by destruct (stages _ _ _ _ _).
Qed.

(** X9: the size of the final resample is the evaluation count over the
    number of blocks, rounded down: size times blocks never exceeds the
    count and misses it by less than the number of blocks.  A negative count
    is first read as [2^64 + count].  The size is 0 exactly when the count
    (so read) is below the number of blocks. *)
Theorem operating_size_bounds (nh : NodeHandle) :
  - 2 ^ 31 <= evaluation_count nh < 2 ^ 31 ->
  sampling_blocks nh <> [] ->
  let n := Z.of_nat (length (sampling_blocks nh)) in
  let budget :=
    if evaluation_count nh <? 0 then 2 ^ 64 + evaluation_count nh
    else evaluation_count nh in
  exists M,
    operating_size nh = Some M /\
    M * n <= budget < M * n + n /\
    (M = 0 <-> budget < n).
Proof.
  intros Hint Hblocks n budget.
  assert (0 < n) as Hn.
  { unfold n. destruct (sampling_blocks nh); [done|]. simpl. lia. }
  assert (size_t_of_int (evaluation_count nh) = budget) as Hconv.
  { unfold size_t_of_int, budget. destruct (Z.ltb_spec (evaluation_count nh) 0).
    - symmetry. apply Z.mod_unique_pos with (q := -1); lia.
    - apply Z.mod_small. lia. }
  exists (budget / n). split_and!.
  - unfold operating_size. fold n. rewrite decide_False by lia. by rewrite Hconv.
  - pose proof (Z.mul_div_le budget n Hn). lia.
  - pose proof (Z.mul_succ_div_gt budget n Hn). lia.
  - split.
    + intros Hzero. apply Z.div_small_iff in Hzero; [|lia].
      unfold budget in *. destruct (Z.ltb_spec (evaluation_count nh) 0); lia.
    + intros Hsmall. apply Z.div_small.
      unfold budget in *. destruct (Z.ltb_spec (evaluation_count nh) 0); lia.
Qed.

(** ** Injection *)

(** X10: injecting the candidates as object [body_index] stays in range
    exactly when the population is no longer than the candidate list and
    every sample has more than [body_index] bodies. *)
Theorem inject_defined_iff (body_index : nat) (initial_states : list VectorXd)
    (P : list FloatingBodySystem) :
  is_Some (inject body_index initial_states P)
  <-> (length P <= length initial_states)%nat /\
      forall s, s ∈ P -> (body_index < length s)%nat.
Proof.
  split.
  - intros [P' HP']. unfold inject in HP'.
    destruct (inject_from_Some _ _ _ _ _ HP') as [Hlen Hget]. split.
    + destruct P as [|s0 P0] eqn:HP; [simpl; lia|]. rewrite <- HP in *.
      destruct (lookup_lt_is_Some_2 P' (length P - 1)) as [s' Hs'].
      { rewrite Hlen, HP. simpl. lia. }
      destruct (Hget _ _ Hs') as (s & x & _ & Hx & _).
      apply lookup_lt_Some in Hx. lia.
    + intros s Hs. apply list_elem_of_lookup in Hs as [i Hi].
      destruct (lookup_lt_is_Some_2 P' i) as [s' Hs'].
      { rewrite Hlen. by eapply lookup_lt_Some. }
      destruct (Hget _ _ Hs') as (s0 & x & Hs0 & _ & Hass).
      rewrite Hi in Hs0. injection Hs0 as <-.
      by apply assign_body_Some in Hass as [? _].
  - intros [Hlen Hbody]. apply inject_from_total; [lia|done].
Qed.

End InitializeEdges.

Section CandidatesFacts.
Context `{CoordinateFilter F} `{FC : !FilterContract}.

Lemma stage_from_candidates image body_count initial_states b P f st' :
  stage image body_count initial_states b (P, f) = Some st' ->
  from_candidates initial_states b P ->
  from_candidates initial_states (S b) st'.1.
Proof.
  unfold stage. simpl. intros Hstage Hfrom.
  destruct (inject b initial_states P) as [P'|] eqn:Hinj; [|done].
  simpl in Hstage. injection Hstage as <-. simpl.
  intros s' j Hs' Hj.
  apply Resample_selects, Filter_zero_selects in Hs'.
  rewrite Samples_set_Samples in Hs'.
  apply list_elem_of_lookup in Hs' as [i Hi].
  destruct (inject_from_Some _ _ _ _ _ Hinj) as [_ Hget].
  destruct (Hget _ _ Hi) as (s & x & Hs & Hx & Hass).
  apply assign_body_Some in Hass as [Hlt ->].
  destruct (decide (j = b)) as [->|Hne].
  - exists x. split; [by eapply list_elem_of_lookup_2|].
    by apply list_lookup_insert_eq.
  - rewrite list_lookup_insert_ne by done.
    apply (Hfrom s j); [by eapply list_elem_of_lookup_2|lia].
Qed.

Lemma stages_from_candidates image body_count initial_states :
  forall n b st st',
    stages image body_count initial_states (seq b n) st = Some st' ->
    from_candidates initial_states b st.1 ->
    from_candidates initial_states (b + n) st'.1.
Proof.
  induction n as [|n IH]; intros b [P f] st' Hrun Hfrom; simpl in Hrun.
  - injection Hrun as <-. by rewrite Nat.add_0_r.
  - destruct (stage image body_count initial_states b (P, f)) as [st1|] eqn:Hst;
      [|done].
    simpl in Hrun. replace (b + S n)%nat with (S b + n)%nat by lia.
    apply (IH (S b) st1 st' Hrun).
    by eapply stage_from_candidates.
Qed.

(** X11: the staged loop ends with a population in which every sample has
    one body per object and every body is the block of one of the
    candidates: no object is left at the pose outside of the image unless a
    candidate is that pose.  With at least one object the same holds for the
    samples the final resample returns. *)
Theorem staged_bodies_from_candidates
    (initial_states : list VectorXd) (ros_image : Image) (camera_matrix : Matrix3d)
    (t : MultiObjectTracker F) (M : Z) :
  let body_count := length (object_names_ t) in
  let image := Ros2Eigen ros_image (downsampling_factor_ t) in
  let start :=
    staged_start body_count initial_states
      (FilterType_SamplingBlocks (dependent_sampling_blocks body_count)
         (new_filter t initial_states ros_image camera_matrix)) in
  let all_candidates (s : FloatingBodySystem) :=
    length s = body_count /\
    forall j, (j < body_count)%nat ->
      exists x, x ∈ initial_states /\ s !! j = Some (Body_of_vector x) in
  exists P f,
    stages image body_count initial_states (seq 0 body_count) start = Some (P, f) /\
    (forall s, s ∈ P -> all_candidates s) /\
    ((0 < body_count)%nat ->
     forall s, s ∈ FilterType_Samples (FilterType_Resample M f) -> all_candidates s).
Proof.
  intros body_count image start all_candidates.
  destruct (stages_spec image body_count initial_states body_count 0
              (map (fun _ => default_state body_count) initial_states)
              (FilterType_SamplingBlocks (dependent_sampling_blocks body_count)
                 (new_filter t initial_states ros_image camera_matrix)))
    as (Ps & P & Hrun & _ & _ & Hlen & Hpend & Hlast).
  { by rewrite length_map. }
  { apply default_state_pending. }
  { lia. }
  cbv zeta in Hrun, Hlast. simpl in Hpend.
  assert (forall s, s ∈ P -> all_candidates s) as Hall.
  { intros s Hs. split; [by apply Hpend|].
    intros j Hj.
    pose proof (stages_from_candidates image body_count initial_states
                  body_count 0 start _ Hrun) as Hfrom.
    apply (Hfrom ltac:(intros ? ? ? ?; lia) s j Hs Hj). }
  eexists P, _. split; [exact Hrun|]. split; [exact Hall|].
  intros Hpos s Hs. apply Resample_selects in Hs.
  destruct (Hlast Hpos) as [HP _]. apply Hall. by rewrite HP.
Qed.

End CandidatesFacts.

(** ** Frame after frame *)

Section FeedingFacts.
Context `{CoordinateFilter F}.

Lemma step_times_Filter (cs : list Call) image dt u :
  step_times (cs ++ [CallFilter image dt u]) = step_times cs ++ [dt].
Proof. unfold step_times. by rewrite omap_app. Qed.

Lemma Filter_each_spec (frames : list Image) :
  forall (t : MultiObjectTracker (Logged F)) (f : Logged F),
    filter_ t = Some f ->
    Forall (fun fr => is_finite (toSec (stamp (header fr))) = true) frames ->
    exists t' f' means,
      Filter_each frames t = Some (t', means) /\
      filter_ t' = Some f' /\
      length means = length frames /\
      node_handle_ t' = node_handle_ t /\
      object_names_ t' = object_names_ t /\
      downsampling_factor_ t' = downsampling_factor_ t /\
      step_times (calls f')
      = step_times (calls f)
        ++ match frames with
           | [] => []
           | first :: _ =>
               let stamps := map (fun fr => toSec (stamp (header fr))) frames in
               elapsed (toSec (stamp (header first))) (last_measurement_time_ t)
               :: zip_with PrimFloat.sub (tail stamps) stamps
           end /\
      last_measurement_time_ t'
      = default (last_measurement_time_ t)
          (last (map (fun fr => toSec (stamp (header fr))) frames)) /\
      length (object_publisher_ t')
      = (length (object_publisher_ t)
         + length frames * length (object_names_ t))%nat.
Proof.
  induction frames as [|fr frames IH]; intros t f Hf Hfin.
  - exists t, f, []. simpl. rewrite app_nil_r. split_and!; first [done|lia].
  - apply Forall_cons in Hfin as [Hfr Hfin].
    destruct (Filter_eq fr t f Hf) as (t1 & HF & Hf1 & Hclock & Hnh & Hnames & Hds).
    cbv zeta in HF, Hf1.
    destruct (IH t1 _ Hf1 Hfin)
      as (t' & f' & means & Hrun & Hf' & Hlen & Hnh' & Hnames' & Hds' & Htimes
          & Hclock' & Hpub).
    eexists t', f', (_ :: means). split_and!.
    + simpl. rewrite HF. simpl. rewrite Hrun. reflexivity.
    + exact Hf'.
    + simpl. by rewrite Hlen.
    + congruence.
    + congruence.
    + congruence.
    + rewrite Htimes, calls_Filter, step_times_Filter, <- app_assoc. f_equal.
      simpl. f_equal. destruct frames as [|fr2 frames]; [done|].
      simpl. rewrite Hclock.
      rewrite (elapsed_set _ _ (is_finite_not_nan _ Hfr)). done.
    + rewrite Hclock', Hclock. cbn [map]. rewrite last_cons.
      by destruct (last _).
    + rewrite Hpub, Hnames. unfold Filter in HF. rewrite Hf in HF. simpl in HF.
      injection HF as <-. simpl. rewrite length_app, length_imap. lia.
Qed.

Lemma Filter_each_config (frames : list Image) :
  forall (t t' : MultiObjectTracker F) means,
    Filter_each frames t = Some (t', means) ->
    node_handle_ t' = node_handle_ t /\
    object_names_ t' = object_names_ t /\
    downsampling_factor_ t' = downsampling_factor_ t.
Proof.
  induction frames as [|fr frames IH]; intros t t' means Hrun; simpl in Hrun.
  - by injection Hrun as <- <-.
  - destruct (Filter fr t) as [[t1 m]|] eqn:HF; [|done]. simpl in Hrun.
    destruct (Filter_each frames t1) as [[t2 ms]|] eqn:Hrest; [|done].
    simpl in Hrun. injection Hrun as <- <-.
    destruct (IH _ _ _ Hrest) as (-> & -> & ->).
    unfold Filter in HF. destruct (filter_ t); [|done]. simpl in HF.
    by injection HF as <- <-.
Qed.

Lemma Initialize_config (initial_states : list VectorXd) ros_image camera_matrix
    state_is_partial (t1 t2 : MultiObjectTracker F) :
  node_handle_ t1 = node_handle_ t2 ->
  object_names_ t1 = object_names_ t2 ->
  downsampling_factor_ t1 = downsampling_factor_ t2 ->
  filter_ <$> Initialize initial_states ros_image camera_matrix state_is_partial t1
  = filter_ <$> Initialize initial_states ros_image camera_matrix state_is_partial t2.
Proof.
  intros Hnh Hnames Hds. unfold Initialize, new_filter.
  rewrite Hnh, Hnames, Hds.
  destruct state_is_partial.
  - destruct (stages _ _ _ _ _) as [[P f]|]; [|done]. simpl.
    by destruct (operating_size _).
  - simpl. by destruct (operating_size _).
Qed.

(** X12: frames fed one after the other to an initialised tracker are all taken;
    the first filter step gets the time since the stored clock (zero when it
    is unset), each later one the difference of its stamp and the stamp
    before, in the order received and whatever its sign; the clock ends at
    the last stamp and every frame adds one marker per object. *)
Theorem Filter_each_elapsed_times (frames : list Image)
    (t : MultiObjectTracker (Logged F)) (f : Logged F) :
  filter_ t = Some f ->
  Forall (fun fr => is_finite (toSec (stamp (header fr))) = true) frames ->
  let stamps := map (fun fr => toSec (stamp (header fr))) frames in
  exists t' f' means,
    Filter_each frames t = Some (t', means) /\
    filter_ t' = Some f' /\
    length means = length frames /\
    step_times (calls f')
    = step_times (calls f)
      ++ match stamps with
         | [] => []
         | first :: _ =>
             elapsed first (last_measurement_time_ t)
             :: zip_with PrimFloat.sub (tail stamps) stamps
         end /\
    last_measurement_time_ t' = default (last_measurement_time_ t) (last stamps) /\
    length (object_publisher_ t')
    = (length (object_publisher_ t) + length frames * length (object_names_ t))%nat.
Proof.
  intros Hf Hfin stamps.
  destruct (Filter_each_spec frames t f Hf Hfin)
    as (t' & f' & means & Hrun & Hf' & Hlen & _ & _ & _ & Htimes & Hclock & Hpub).
  exists t', f', means. split_and!; try done.
  rewrite Htimes. f_equal. by destruct frames.
Qed.

End FeedingFacts.

Section ReinitialisationFacts.
Context `{CoordinateFilter F}.

Lemma Initialize_keeps_config (initial_states : list VectorXd) ros_image
    camera_matrix state_is_partial (t t' : MultiObjectTracker F) :
  Initialize initial_states ros_image camera_matrix state_is_partial t = Some t' ->
  node_handle_ t' = node_handle_ t /\
  object_names_ t' = object_names_ t /\
  downsampling_factor_ t' = downsampling_factor_ t.
Proof.
  unfold Initialize. intros Hinit.
  apply bind_Some in Hinit as (f0 & _ & Hinit).
  apply bind_Some in Hinit as (n & _ & Hinit).
  by injection Hinit as <-.
Qed.

(** X13: initialising again after an initialisation and any number of
    frames gives the filter that initialising the original tracker with the
    same arguments gives: nothing of the old filter or of the frames seen
    goes into the new one. *)
Theorem Initialize_after_frames (frames : list Image)
    (first_states initial_states : list VectorXd) (first_image ros_image : Image)
    (first_matrix camera_matrix : Matrix3d) (first_partial state_is_partial : bool)
    (t t1 t2 : MultiObjectTracker F) (means : list VectorXd) :
  Initialize first_states first_image first_matrix first_partial t = Some t1 ->
  Filter_each frames t1 = Some (t2, means) ->
  filter_ <$> Initialize initial_states ros_image camera_matrix state_is_partial t2
  = filter_ <$> Initialize initial_states ros_image camera_matrix state_is_partial t.
Proof.
  intros Hinit Hrun.
  destruct (Initialize_keeps_config _ _ _ _ _ _ Hinit) as (? & ? & ?).
  destruct (Filter_each_config frames t1 t2 means Hrun) as (? & ? & ?).
  apply Initialize_config; congruence.
Qed.

End ReinitialisationFacts.

(** * The controller *)

Section ControllerFacts.
Import Controller.
Context `{Node W}.

Lemma stop_object_tracker_watched (lw : Watched W) :
  let r := object_tracker_service_call (stop_request (world lw)) (world lw) in
  stop_object_tracker lw
  = (r.1, {| world := r.2;
             events := events lw ++ [TrackerCall (stop_request (world lw)) r.1] |}).
Proof.
  unfold stop_object_tracker. simpl.
  destruct (object_tracker_service_call _ _) as [[] w]; reflexivity.
Qed.

(** A request named "stop" only stops the tracker *)
(** X1: a request whose object name is "stop" only stops the tracker: one
    call on the tracker service, with the configured package and directory,
    the name "stop" and a blank pose; the finder and the initialiser are left
    alone whatever the two flags say, and the result is that call's. *)
Theorem track_object_srv_stop (req : TrackObjectRequest) (lw : Watched W) :
  object_name req = "stop" ->
  exists ok lw',
    track_object_srv req lw = Some (ok, lw') /\
    events lw' = events lw ++ [TrackerCall (stop_request (world lw)) ok].
Proof.
  intros Hname. unfold track_object_srv. rewrite Hname. simpl.
  rewrite stop_object_tracker_watched. eauto.
Qed.

Lemma eqb_stop_false (s : string) : s <> "stop" -> String.eqb s "stop" = false.
Proof. intros Hs. by apply String.eqb_neq. Qed.

Lemma eqb_stop_cases (s : string) :
  (String.eqb s "stop" = true /\ s = "stop") \/
  (String.eqb s "stop" = false /\ s <> "stop").
Proof.
  destruct (String.eqb s "stop") eqn:E.
  - left. split; [done|]. by apply String.eqb_eq.
  - right. split; [done|]. by apply String.eqb_neq.
Qed.

(** The next call of the node on the outside world, by cases on its result. *)
Ltac plain t :=
  lazymatch t with
  | context [object_tracker_service_call _ _] => fail
  | context [object_finder_service_call _ _] => fail
  | context [wait_for_object_poses _] => fail
  | _ => idtac
  end.

Ltac step :=
  match goal with
  | |- context [object_tracker_service_call ?r ?w] =>
      plain r; plain w;
      destruct (object_tracker_service_call r w) as [[] ?] eqn:?
  | |- context [object_finder_service_call ?r ?w] =>
      plain r; plain w;
      destruct (object_finder_service_call r w) as [[[] ?] ?] eqn:?
  | |- context [wait_for_object_poses ?w] =>
      plain w;
      destruct (wait_for_object_poses w) as [[] ?] eqn:?
  | |- context [poses ?w !! 0%nat] =>
      plain w;
      destruct (poses w !! 0%nat) eqn:?
  end; cbn -[String.eqb String.append].

(** [track_object_srv] on a watched world, unfolded, by cases on the name
    and the two flags of the request. *)
Ltac flags req :=
  unfold track_object_srv, stop_object_tracker, run_request, stop_request,
    string_param;
  destruct (eqb_stop_cases (object_name req)) as [[-> ?]|[-> ?]];
  [|destruct (auto_detect req) eqn:?; destruct (auto_confirm req) eqn:?];
  cbn -[String.eqb String.append].

Ltac split_last :=
  cbn; rewrite <- ?app_assoc; cbn;
  match goal with
  | |- exists before e, ?es ++ ?l = ?es ++ before ++ [e] /\ _ =>
      let x := eval cbn in (List.removelast l) in
      let y := eval cbn in (List.last l (WaitForObjectPoses true)) in
      exists x, y
  end.

(** X2: [track_object_srv] stops at the first call that fails.  Its result
    is the result of the last call it made, and every call before that one
    succeeded. *)
Theorem track_object_srv_fail_fast (req : TrackObjectRequest) (lw lw' : Watched W)
    (r : bool) :
  track_object_srv req lw = Some (r, lw') ->
  exists before e,
    events lw' = events lw ++ before ++ [e] /\
    forallb event_ok before = true /\
    event_ok e = r.
Proof.
  flags req; repeat step; intros [= <- <-]; split_last; done.
Qed.

(** X3: the first request to the tracker service is always the stop
    request.  At most one more follows, and only for a name other than
    "stop": the request to run on [object_name + ".obj"] under the package
    and directory configured after the stop.  A request that returned true
    for such a name sent both. *)
Theorem track_object_srv_tracker_requests (req : TrackObjectRequest)
    (lw lw' : Watched W) (r : bool) :
  track_object_srv req lw = Some (r, lw') ->
  let stop := stop_request (world lw) in
  let w1 := (object_tracker_service_call stop (world lw)).2 in
  exists new,
    events lw' = events lw ++ new /\
    (tracker_requests new = [stop] \/
     object_name req <> "stop" /\
     exists p, tracker_requests new = [stop; run_request req w1 p]) /\
    (r = true -> object_name req <> "stop" ->
     exists p, tracker_requests new = [stop; run_request req w1 p]).
Proof.
  flags req; repeat step; intros [= <- <-]; cbn; rewrite <- ?app_assoc; cbn;
    (eexists; split; [reflexivity|]); cbn; split.
  all: try (by left).
  all: try (right; split; [done|]; by eexists).
  all: try (intros; done).
  all: try (intros; by eexists).
Qed.

(** X4: with [auto_detect] and [auto_confirm] the service always returns and
    never touches the initialiser.  When it returns true it made exactly
    three calls: stop, find, run; and the run request carries the pose the
    finder reported, header included, under the configured package and
    directory (not the ones in the finder's answer). *)
Theorem track_object_srv_automatic (req : TrackObjectRequest) (lw : Watched W) :
  object_name req <> "stop" ->
  auto_detect req = true ->
  auto_confirm req = true ->
  let stop := stop_request (world lw) in
  let w1 := (object_tracker_service_call stop (world lw)).2 in
  let find := ori (run_request req w1 PoseStamped_new) in
  let found := (object_finder_service_call find w1).1.2 in
  exists r lw' new,
    track_object_srv req lw = Some (r, lw') /\
    events lw' = events lw ++ new /\
    Forall (fun e => on_initializer e = false) new /\
    (r = true ->
     new = [TrackerCall stop true; FinderCall find true;
            TrackerCall (run_request req w1 (pose found)) true]).
Proof.
  intros Hname Hdetect Hconfirm.
  flags req; [done|..]; try discriminate.
  repeat step; eexists _, _, _; (split; [reflexivity|]);
    cbn; rewrite <- ?app_assoc; cbn;
    (split; [reflexivity|]); (split; [repeat constructor|]); done.
Qed.

(** X5: with [auto_confirm] the service never waits for the user.  Without
    it, a request (other than "stop") that returned true waited for the
    poses, was confirmed, and sent the run request as its very next call. *)
Theorem track_object_srv_confirmation (req : TrackObjectRequest)
    (lw lw' : Watched W) (r : bool) :
  track_object_srv req lw = Some (r, lw') ->
  let stop := stop_request (world lw) in
  let w1 := (object_tracker_service_call stop (world lw)).2 in
  exists new,
    events lw' = events lw ++ new /\
    (auto_confirm req = true ->
     Forall (fun e => forall ok, e <> WaitForObjectPoses ok) new) /\
    (auto_confirm req = false -> object_name req <> "stop" -> r = true ->
     exists before p,
       new = before ++ [WaitForObjectPoses true;
                        TrackerCall (run_request req w1 p) true]).
Proof.
  flags req; repeat step; intros [= <- <-]; cbn; rewrite <- ?app_assoc; cbn;
    (eexists; split; [reflexivity|]); split.
  all: try (intros; done).
  all: try (intros _; by repeat constructor).
  all: intros _ _ _.
  - by eexists [_; _; _], _.
  - by eexists [_; _], _.
Qed.

(** X6: without [auto_detect], [poses()[0]] is read right after
    [set_objects], also when a confirmation is still to come: if the
    initialiser then holds no pose, the read is out of range. *)
Theorem track_object_srv_without_pose (req : TrackObjectRequest) (w w1 : W) :
  object_name req <> "stop" ->
  auto_detect req = false ->
  object_tracker_service_call (stop_request w) w = (true, w1) ->
  poses (set_objects (string_param "objects/package" w1)
           (string_param "objects/directory" w1)
           [object_name req +:+ ".obj"] [] true (negb (auto_confirm req)) w1) = [] ->
  track_object_srv req w = None.
Proof.
  intros Hname Hdetect Hstop Hposes.
  unfold track_object_srv, stop_object_tracker.
  rewrite (eqb_stop_false _ Hname), Hstop, Hdetect. cbn -[String.append].
  by rewrite Hposes.
Qed.

(** X7: an out-of-range read of [poses()] can only happen for a name other
    than "stop" with [auto_detect] or [auto_confirm] off. *)
Theorem track_object_srv_defined (req : TrackObjectRequest) (w : W) :
  track_object_srv req w = None ->
  object_name req <> "stop" /\
  (auto_detect req = false \/ auto_confirm req = false).
Proof.
  flags req; repeat step; try done; intros _; (split; [done|]); eauto.
Qed.

(** X14: missing parameters are not noticed: with neither the package nor
    the directory set, the stop request still goes out, with both strings
    empty. *)
Theorem track_object_srv_missing_parameters (req : TrackObjectRequest)
    (lw lw' : Watched W) (r : bool) :
  getParam "objects/package" (world lw) = None ->
  getParam "objects/directory" (world lw) = None ->
  track_object_srv req lw = Some (r, lw') ->
  exists ok later,
    events lw'
    = events lw
      ++ TrackerCall {| ori := {| package := ""; directory := ""; name := "stop" |};
                        pose := PoseStamped_new |} ok
         :: later.
Proof.
  intros Hpackage Hdirectory.
  flags req; rewrite Hpackage, Hdirectory; cbn -[String.eqb String.append];
    repeat step; intros [= <- <-]; cbn; rewrite <- ?app_assoc; cbn;
    by eexists _, _.
Qed.

End ControllerFacts.

(** * Runs on the bench *)

Import Bench.

(** The bench filter keeps the contract. *)
Lemma Toy_contract : FilterContract (F := Toy).
Proof.
  split; simpl.
  - done.
  - done.
  - done.
  - intros n f s. unfold toy_resampled.
    destruct (toy_samples f) as [|s0 l]; simpl.
    + intros Hs. by apply elem_of_nil in Hs.
    + intros Hs. apply elem_of_replicate in Hs as [-> _]. left.
  - intros n f Hn Hne. unfold toy_resampled.
    destruct (toy_samples f) as [|s0 l]; [done|].
    simpl. by rewrite length_replicate.
Qed.

(** Two objects, two candidates, 8 evaluations over two blocks. *)
Lemma Initialize_partial_stage_calls_witness :
  exists t' f' Ps process observation_model,
    Initialize [candidate 1; candidate 2] (frame 10 4 4) K true
      (tracker ["a"; "b"] 8 [[0; 1; 2]; [3; 4; 5]]%nat) = Some t' /\
    filter_ t' = Some f' /\
    length Ps = 2%nat /\
    (forall b P, Ps !! b = Some P ->
       carries_candidates [candidate 1; candidate 2] b P) /\
    calls f'
    = [CallNew process observation_model [[0; 1; 2]; [3; 4; 5]]%nat 1%float;
       CallSamplingBlocks (dependent_sampling_blocks 2)]
      ++ concat (map (stage_calls (Ros2Eigen (frame 10 4 4) 2) 2 2) Ps)
      ++ [CallResample 4; CallSamplingBlocks [[0; 1; 2]; [3; 4; 5]]%nat].
Proof.
  exact (Initialize_partial_stage_calls (FC := Toy_contract)
           [candidate 1; candidate 2] (frame 10 4 4) K
           (tracker ["a"; "b"] 8 [[0; 1; 2]; [3; 4; 5]]%nat) 4 eq_refl).
Defined.

(** The same run, for the schedule at its two filter steps. *)
Lemma Initialize_partial_schedule_witness :
  exists t' f',
    Initialize [candidate 1; candidate 2] (frame 10 4 4) K true
      (tracker ["a"; "b"] 8 [[0; 1; 2]; [3; 4; 5]]%nat) = Some t' /\
    filter_ t' = Some f' /\
    schedule_at_steps [] (calls f') = replicate 2 [seq 0 12] /\
    step_times (calls f') = replicate 2 0%float.
Proof.
  exact (Initialize_partial_schedule (FC := Toy_contract)
           [candidate 1; candidate 2] (frame 10 4 4) K
           (tracker ["a"; "b"] 8 [[0; 1; 2]; [3; 4; 5]]%nat) 4 eq_refl).
Defined.

(** C2, as stated, fails for two objects: both stages' filter steps run
    under the one block 0..11, not under the block of object 0 and then the
    block of object 1. *)
Lemma Initialize_partial_schedule_is_joint :
  let cs :=
    calls_of (Initialize [candidate 1; candidate 2] (frame 10 4 4) K true
                (tracker ["a"; "b"] 8 [[0; 1; 2]; [3; 4; 5]]%nat)) in
  schedule_at_steps [] cs = [[seq 0 12]; [seq 0 12]] /\
  schedule_at_steps [] cs <> [[object_block 0]; [object_block 1]].
Proof. split; [reflexivity|]. intros Heq. discriminate Heq. Qed.


(** The population of that run at the start of the stage of object 1, as the
    bench filter leaves it: object 0 from a candidate, objects 1 and 2 at
    the pose outside of the image. *)
Lemma stage_start_population :
  let initial_states := [candidate 1; candidate 2] in
  let t := tracker ["a"; "b"; "c"] 8 [[0; 1; 2]; [3; 4; 5]]%nat in
  let sentinel :=
    [0%float; 0%float; 1.5%float; 0%float; 0%float; 0%float;
     0%float; 0%float; 0%float; 0%float; 0%float; 0%float] in
  fst <$> stages (Ros2Eigen (frame 10 4 4) 2) 3 initial_states (seq 0 1)
            (staged_start 3 initial_states
               (FilterType_SamplingBlocks (dependent_sampling_blocks 3)
                  (new_filter t initial_states (frame 10 4 4) K)))
  = Some [[candidate 1; sentinel; sentinel]; [candidate 1; sentinel; sentinel]].
Proof. reflexivity. Qed.

(** Two objects and no candidate, in both modes. *)
Lemma Initialize_without_candidates_witness :
  let t := tracker ["a"; "b"] 8 [[0; 1; 2]; [3; 4; 5]]%nat in
  let image := Ros2Eigen (frame 10 4 4) 2 in
  (exists t' f' process observation_model,
     Initialize [] (frame 10 4 4) K false t = Some t' /\
     filter_ t' = Some f' /\
     calls f'
     = [CallNew process observation_model [[0; 1; 2]; [3; 4; 5]]%nat 1%float;
        CallSamplingBlocks (dependent_sampling_blocks 2);
        CallSamples [];
        CallFilter image 0%float (Input_Zero 12);
        CallResample 4;
        CallSamplingBlocks [[0; 1; 2]; [3; 4; 5]]%nat]) /\
  (exists t' f' process observation_model,
     Initialize [] (frame 10 4 4) K true t = Some t' /\
     filter_ t' = Some f' /\
     calls f'
     = [CallNew process observation_model [[0; 1; 2]; [3; 4; 5]]%nat 1%float;
        CallSamplingBlocks (dependent_sampling_blocks 2)]
       ++ concat (replicate 2
                    [CallSamples [];
                     CallFilter image 0%float (Input_Zero 12);
                     CallResample 0])
       ++ [CallResample 4; CallSamplingBlocks [[0; 1; 2]; [3; 4; 5]]%nat]).
Proof.
  exact (Initialize_without_candidates (FC := Toy_contract) (frame 10 4 4) K
           (tracker ["a"; "b"] 8 [[0; 1; 2]; [3; 4; 5]]%nat) 4 eq_refl).
Defined.

(** One object, one candidate, 4 evaluations over one block. *)
Lemma Initialize_full_calls_witness :
  exists t' f' process observation_model,
    Initialize [candidate 1] (frame 3 4 4) K false (tracker ["a"] 4 one_block)
    = Some t' /\
    filter_ t' = Some f' /\
    calls f'
    = [CallNew process observation_model one_block 1%float;
       CallSamplingBlocks [seq 0 6];
       CallSamples (map System_of_vector [candidate 1]);
       CallFilter (Ros2Eigen (frame 3 4 4) 2) 0%float (Input_Zero 6);
       CallResample 4;
       CallSamplingBlocks one_block].
Proof.
  exact (Initialize_full_calls [candidate 1] (frame 3 4 4) K
           (tracker ["a"] 4 one_block) 4 eq_refl).
Defined.

(** C7, as stated, fails for one candidate and an operating size of 4: the
    population handed to the filter holds the one candidate, not 4 samples,
    and the filter step follows at once. *)
Lemma Initialize_full_seeds_candidates_only :
  let t := tracker ["a"] 4 one_block in
  let cs := calls_of (Initialize [candidate 1] (frame 3 4 4) K false t) in
  operating_size (node_handle_ t) = Some 4 /\
  cs !! 2%nat = Some (CallSamples [[candidate 1]]) /\
  length [[candidate 1]] <> 4%nat /\
  cs !! 3%nat
  = Some (CallFilter (Ros2Eigen (frame 3 4 4) 2) 0%float (Input_Zero 6)).
Proof. split_and!; [reflexivity..| |reflexivity]. simpl. lia. Qed.



(** The initialised one-object tracker on a frame stamped 5 s. *)
Lemma Filter_one_step_witness :
  exists t' f' delta_time,
    Filter (frame 5 4 4) ready = Some (t', vector_of_System (FilterType_Mean f')) /\
    filter_ t' = Some f' /\
    (is_nan (last_measurement_time_ ready) = true -> delta_time = 0%float) /\
    (is_nan (last_measurement_time_ ready) = false ->
       delta_time = PrimFloat.sub (toSec (stamp (header (frame 5 4 4))))
                      (last_measurement_time_ ready)) /\
    calls f'
    = calls ready_filter
      ++ [CallFilter (Ros2Eigen (frame 5 4 4) 2) delta_time (replicate 6 0%float)] /\
    inner f'
    = FilterType_Filter (Ros2Eigen (frame 5 4 4) 2) delta_time
        (replicate 6 0%float) (inner ready_filter) /\
    last_measurement_time_ t' = toSec (stamp (header (frame 5 4 4))).
Proof.
  exact (Filter_one_step (frame 5 4 4) ready ready_filter eq_refl eq_refl).
Defined.

(** The same tracker on an 8x6 frame. *)
Lemma Filter_accepts_every_frame_witness :
  exists t' f',
    Filter (frame 5 8 6) ready = Some (t', vector_of_System (FilterType_Mean f')) /\
    filter_ t' = Some f' /\
    f' = FilterType_Filter (Ros2Eigen (frame 5 8 6) 2)
           (elapsed (toSec (stamp (header (frame 5 8 6))))
              (last_measurement_time_ ready))
           (Input_Zero 6) ready_filter.
Proof.
  exact (Filter_accepts_every_frame (frame 5 8 6) ready ready_filter eq_refl).
Defined.

(** C5, as stated, fails: a tracker set up on 2x2 images is given a frame
    that converts to 4x3.  Filter hands it to a filter step, which reweighs
    the population (weight 12 where it was 1), and the caller gets a mean. *)
Lemma Filter_takes_mismatched_frame :
  configured_size (calls ready_filter) = Some (2, 2) /\
  Ros2Eigen (frame 5 8 6) 2 = {| rows := 4; cols := 3; coeffs := [] |} /\
  calls_of (update (frame 5 8 6) ready)
  = calls ready_filter
    ++ [CallFilter {| rows := 4; cols := 3; coeffs := [] |} 0%float
          (replicate 6 0%float)] /\
  toy_weights (inner ready_filter) = [1; 1; 1; 1] /\
  (toy_weights ∘ inner) <$> (update (frame 5 8 6) ready ≫= filter_)
  = Some [12; 12; 12; 12] /\
  snd <$> Filter (frame 5 8 6) ready = Some (candidate 1).
Proof. split_and!; reflexivity. Qed.

(** A new tracker, initialised, then frames stamped 5 s and 7 s. *)
Lemma Initialize_keeps_clock_witness :
  let t := tracker ["a"] 4 one_block in
  let now0 := toSec (stamp (header (frame 5 4 4))) in
  let now1 := toSec (stamp (header (frame 7 4 4))) in
  (forall nh,
     is_nan (last_measurement_time_
               (MultiObjectTracker_new (F := Logged Toy) nh)) = true) /\
  last_measurement_time_ ready = last_measurement_time_ t /\
  exists f1 t2 m0 t3 m1 delta_time,
    filter_ ready = Some f1 /\
    Filter (frame 5 4 4) ready = Some (t2, m0) /\
    Filter (frame 7 4 4) t2 = Some (t3, m1) /\
    (is_nan (last_measurement_time_ t) = true -> delta_time = 0%float) /\
    (is_nan (last_measurement_time_ t) = false ->
       delta_time = PrimFloat.sub now0 (last_measurement_time_ t)) /\
    filter_ t3
    = Some (FilterType_Filter (Ros2Eigen (frame 7 4 4) 2)
              (PrimFloat.sub now1 now0) (Input_Zero 6)
              (FilterType_Filter (Ros2Eigen (frame 5 4 4) 2)
                 delta_time (Input_Zero 6) f1)).
Proof.
  exact (Initialize_keeps_clock [candidate 1] (frame 3 4 4) K false
           (tracker ["a"] 4 one_block) ready (frame 5 4 4) (frame 7 4 4)
           eq_refl eq_refl).
Defined.

(** C3, as stated, fails: a tracker is initialised, filters a frame stamped
    5 s and is initialised again.  The clock still reads 5 s, and the first
    Filter after that initialisation, on a frame stamped 7 s, computes 2 s;
    without the earlier Filter the same frame gives 0 s. *)
Lemma Initialize_does_not_reset_clock :
  let r1 := Initialize [candidate 1] (frame 3 4 4) K false
              (tracker ["a"] 4 one_block) in
  let r2 := r1 ≫= update (frame 5 4 4) in
  let r3 := r2 ≫= Initialize [candidate 1] (frame 6 4 4) K false in
  last_measurement_time_ <$> r3 = Some 5%float /\
  step_times (calls_of (r3 ≫= update (frame 7 4 4))) = [0%float; 2%float] /\
  step_times (calls_of (r1 ≫= update (frame 7 4 4))) = [0%float; 0%float].
Proof. split_and!; reflexivity. Qed.

(** * Runs on the desk and the replay *)

Section DeskRuns.
Import Controller Desk Replay.

(** A stop request on a desk where everything answers. *)
Lemma track_object_srv_stop_witness :
  exists ok lw',
    track_object_srv (request "stop" true false) (desk true true true)
    = Some (ok, lw') /\
    events lw'
    = events (desk true true true)
      ++ [TrackerCall (stop_request (world (desk true true true))) ok].
Proof.
  exact (track_object_srv_stop (request "stop" true false) (desk true true true)
           eq_refl).
Defined.

(** A detected mug the user does not confirm. *)
Lemma track_object_srv_fail_fast_witness :
  let run := track_object_srv (request "mug" true false) (desk true true false) in
  exists before e,
    events (world_of run) = events (desk true true false) ++ before ++ [e] /\
    forallb event_ok before = true /\
    event_ok e = result_of run.
Proof.
  exact (track_object_srv_fail_fast (request "mug" true false)
           (desk true true false) _ _ eq_refl).
Defined.

(** A detected mug, started without confirmation. *)
Lemma track_object_srv_tracker_requests_witness :
  let lw := desk true true true in
  let run := track_object_srv (request "mug" true true) lw in
  let stop := stop_request (world lw) in
  let w1 := (object_tracker_service_call stop (world lw)).2 in
  exists new,
    events (world_of run) = events lw ++ new /\
    (tracker_requests new = [stop] \/
     "mug" <> "stop" /\
     exists p, tracker_requests new
               = [stop; run_request (request "mug" true true) w1 p]) /\
    (result_of run = true -> "mug" <> "stop" ->
     exists p, tracker_requests new
               = [stop; run_request (request "mug" true true) w1 p]).
Proof.
  exact (track_object_srv_tracker_requests (request "mug" true true)
           (desk true true true) _ _ eq_refl).
Defined.

(** The same request, for the three calls it makes. *)
Lemma track_object_srv_automatic_witness :
  let req := request "mug" true true in
  let lw := desk true true true in
  let stop := stop_request (world lw) in
  let w1 := (object_tracker_service_call stop (world lw)).2 in
  let find := ori (run_request req w1 PoseStamped_new) in
  let found := (object_finder_service_call find w1).1.2 in
  exists r lw' new,
    track_object_srv req lw = Some (r, lw') /\
    events lw' = events lw ++ new /\
    Forall (fun e => on_initializer e = false) new /\
    (r = true ->
     new = [TrackerCall stop true; FinderCall find true;
            TrackerCall (run_request req w1 (pose found)) true]).
Proof.
  apply (track_object_srv_automatic (request "mug" true true) (desk true true true));
    [discriminate|reflexivity|reflexivity].
Defined.

(** A detected mug the user confirms. *)
Lemma track_object_srv_confirmation_witness :
  let req := request "mug" true false in
  let lw := desk true true true in
  let run := track_object_srv req lw in
  let stop := stop_request (world lw) in
  let w1 := (object_tracker_service_call stop (world lw)).2 in
  exists new,
    events (world_of run) = events lw ++ new /\
    (auto_confirm req = true ->
     Forall (fun e => forall ok, e <> WaitForObjectPoses ok) new) /\
    (auto_confirm req = false -> "mug" <> "stop" -> result_of run = true ->
     exists before p,
       new = before ++ [WaitForObjectPoses true;
                        TrackerCall (run_request req w1 p) true]).
Proof.
  exact (track_object_srv_confirmation (request "mug" true false)
           (desk true true true) _ _ eq_refl).
Defined.

(** A mug placed by hand on a desk whose initialiser holds no pose. *)
Lemma track_object_srv_without_pose_witness :
  track_object_srv (request "mug" false true) (world (desk true true true)) = None.
Proof.
  apply (track_object_srv_without_pose (request "mug" false true)
           (world (desk true true true)) (world (desk true true true)));
    [discriminate|reflexivity|reflexivity|reflexivity].
Defined.

Lemma track_object_srv_defined_witness :
  "mug" <> "stop" /\
  (auto_detect (request "mug" false true) = false \/
   auto_confirm (request "mug" false true) = false).
Proof.
  exact (track_object_srv_defined (request "mug" false true)
           (world (desk true true true)) eq_refl).
Defined.

(** A desk with no parameter set. *)
Lemma track_object_srv_missing_parameters_witness :
  let run := track_object_srv (request "mug" true true) unconfigured in
  exists ok later,
    events (world_of run)
    = events unconfigured
      ++ TrackerCall {| ori := {| package := ""; directory := ""; name := "stop" |};
                        pose := PoseStamped_new |} ok
         :: later.
Proof.
  exact (track_object_srv_missing_parameters (request "mug" true true)
           unconfigured _ _ eq_refl eq_refl eq_refl).
Defined.

(** The bench tracker with no sampling block configured. *)
Lemma Initialize_undefined_iff_witness :
  Initialize [candidate 1] (frame 3 4 4) K true (tracker ["a"] 4 []) = None
  <-> sampling_blocks (node_handle_ (tracker ["a"] 4 [])) = [].
Proof.
  exact (Initialize_undefined_iff (FC := Logged_contract Toy_contract)
           [candidate 1] (frame 3 4 4) K true (tracker ["a"] 4 [])).
Defined.

(** An evaluation count of -4 over one block. *)
Lemma operating_size_bounds_witness :
  exists M,
    operating_size (params ["a"] (-4) one_block) = Some M /\
    M * 1 <= 2 ^ 64 + -4 < M * 1 + 1 /\
    (M = 0 <-> 2 ^ 64 + -4 < 1).
Proof.
  apply (operating_size_bounds (params ["a"] (-4) one_block)).
  - simpl. lia.
  - discriminate.
Defined.

(** Two objects and two candidates on the bench. *)
Lemma staged_bodies_from_candidates_witness :
  let initial_states := [candidate 1; candidate 2] in
  let t := tracker ["a"; "b"] 8 [[0; 1; 2]; [3; 4; 5]]%nat in
  let start :=
    staged_start 2 initial_states
      (FilterType_SamplingBlocks (dependent_sampling_blocks 2)
         (new_filter t initial_states (frame 10 4 4) K)) in
  let all_candidates (s : list VectorXd) :=
    length s = 2%nat /\
    forall j, (j < 2)%nat ->
      exists x, x ∈ initial_states /\ s !! j = Some (Body_of_vector x) in
  exists P f,
    stages (Ros2Eigen (frame 10 4 4) 2) 2 initial_states (seq 0 2) start
    = Some (P, f) /\
    (forall s, s ∈ P -> all_candidates s) /\
    ((0 < 2)%nat ->
     forall s, s ∈ FilterType_Samples (FilterType_Resample 4 f) -> all_candidates s).
Proof.
  exact (staged_bodies_from_candidates (FC := Logged_contract Toy_contract)
           [candidate 1; candidate 2] (frame 10 4 4) K
           (tracker ["a"; "b"] 8 [[0; 1; 2]; [3; 4; 5]]%nat) 4).
Defined.

(** Frames stamped 5 s, 7 s and 6 s: the last one goes back in time. *)
Lemma Filter_each_elapsed_times_witness :
  let frames := [frame 5 4 4; frame 7 4 4; frame 6 4 4] in
  exists t' f' means,
    Filter_each frames ready = Some (t', means) /\
    filter_ t' = Some f' /\
    length means = 3%nat /\
    step_times (calls f')
    = step_times (calls ready_filter) ++ [0%float; 2%float; (-1)%float] /\
    last_measurement_time_ t' = 6%float /\
    length (object_publisher_ t') = (0 + 3 * 1)%nat.
Proof.
  apply (Filter_each_elapsed_times [frame 5 4 4; frame 7 4 4; frame 6 4 4]
           ready ready_filter eq_refl).
  repeat constructor.
Defined.

(** The bench tracker, initialised, fed two frames and initialised again. *)
Lemma Initialize_after_frames_witness :
  filter_ <$> Initialize [candidate 2] (frame 8 4 4) K false fed_tracker
  = filter_ <$> Initialize [candidate 2] (frame 8 4 4) K false
                  (tracker ["a"] 4 one_block).
Proof.
  exact (Initialize_after_frames [frame 5 4 4; frame 7 4 4]
           [candidate 1] [candidate 2] (frame 3 4 4) (frame 8 4 4) K K false false
           (tracker ["a"] 4 one_block) ready fed_tracker fed_means
           eq_refl eq_refl).
Defined.

End DeskRuns.
